(** * Data Analyst Agent: a shallow embedding of [backend/server.py]

    The request handler [analyze_data] and the helpers it calls are
    transcribed as Rocq functions.  Python exceptions become the [Raises]
    branch of [outcome] (a library call) and of [ending] (the server's own
    code); the request log collection and the temporary
    workspaces on disk form the explicit [World] that the handler threads;
    the third-party libraries (pandas, PyPDF2, PIL, the model client, the
    Python interpreter behind [exec]) are the fields of the [Libraries]
    class, one field per call the source makes.

    Strings are Python [str] values restricted to code points below 256
    (one [ascii] per code point). *)

From Stdlib Require Import String Ascii ZArith List Lia Bool PrimFloat.
From stdpp Require Import gmap strings pretty.

Local Open Scope stdpp_scope.
Local Open Scope Z_scope.

(* ===================================================================== *)
(** * Python string methods used by the server *)
(* ===================================================================== *)

Module PyStr.

(** [s.startswith(p)] *)
Fixpoint startswith (p s : string) : bool :=
  match p with
  | EmptyString => true
  | String a p' =>
      match s with
      | EmptyString => false
      | String b s' => if Ascii.eqb a b then startswith p' s' else false
      end
  end.

(** [s[n:]] *)
Fixpoint drop (n : nat) (s : string) : string :=
  match n, s with
  | O, _ => s
  | S _, EmptyString => EmptyString
  | S n', String _ s' => drop n' s'
  end.

(** [p in s] for a pattern [p]: is there an occurrence of [p] in [s]? *)
Fixpoint contains (p s : string) : bool :=
  if startswith p s then true
  else match s with
       | EmptyString => false
       | String _ s' => contains p s'
       end.

(** [s.partition(sep)] when [sep] occurs: the text before and the text
    after the leftmost occurrence of [sep]; [None] when it does not
    occur. *)
Fixpoint cut (sep s : string) : option (string * string) :=
  if startswith sep s then Some (EmptyString, drop (String.length sep) s)
  else match s with
       | EmptyString => None
       | String c s' =>
           match cut sep s' with
           | Some (a, b) => Some (String c a, b)
           | None => None
           end
       end.

(** [s.split(sep)] for a non-empty [sep]: scan left to right, cutting at
    each leftmost occurrence.  Every cut shortens the text, so
    [String.length s] steps after the first are always enough. *)
Fixpoint split_go (fuel : nat) (sep s : string) : list string :=
  match cut sep s with
  | None => [s]
  | Some (a, b) =>
      match fuel with
      | O => [a; b]
      | S fuel' => a :: split_go fuel' sep b
      end
  end.

Definition split (sep s : string) : list string :=
  split_go (String.length s) sep s.

(** [l[i]] on the result of a split; the server only indexes where the
    preceding [in] test guarantees the element exists. *)
Definition item (l : list string) (i : nat) : string := nth i l EmptyString.

(** [c.isspace()] for code points below 256. *)
Definition isspace (c : ascii) : bool :=
  let n := nat_of_ascii c in
  ((9 <=? n)%nat && (n <=? 13)%nat) || ((28 <=? n)%nat && (n <=? 32)%nat)
  || (n =? 133)%nat || (n =? 160)%nat.

Fixpoint lstrip (s : string) : string :=
  match s with
  | EmptyString => EmptyString
  | String c s' => if isspace c then lstrip s' else s
  end.

Fixpoint rstrip (s : string) : string :=
  match s with
  | EmptyString => EmptyString
  | String c s' =>
      match rstrip s' with
      | EmptyString => if isspace c then EmptyString else String c EmptyString
      | r => String c r
      end
  end.

(** [s.strip()] *)
Definition strip (s : string) : string := rstrip (lstrip s).

(** [s.endswith(suffix)] *)
Definition endswith (suffix s : string) : bool :=
  startswith (String.rev suffix) (String.rev s).

(** [c.lower()] for code points below 256: A-Z and the Latin-1 capitals
    (0xC0-0xDE except the multiplication sign 0xD7) move up by 32. *)
Definition lower_char (c : ascii) : ascii :=
  let n := nat_of_ascii c in
  if ((65 <=? n)%nat && (n <=? 90)%nat)
     || ((192 <=? n)%nat && (n <=? 222)%nat && negb (n =? 215)%nat)
  then ascii_of_nat (n + 32) else c.

Fixpoint lower (s : string) : string :=
  match s with
  | EmptyString => EmptyString
  | String c s' => String (lower_char c) (lower s')
  end.

(** [s.replace(old, new)] where [old] and [new] are single characters. *)
Fixpoint replace (old new : ascii) (s : string) : string :=
  match s with
  | EmptyString => EmptyString
  | String c s' =>
      String (if Ascii.eqb c old then new else c) (replace old new s')
  end.

(** [c.isalnum()] on ASCII. *)
Definition isalnum (c : ascii) : bool :=
  let n := nat_of_ascii c in
  ((48 <=? n)%nat && (n <=? 57)%nat) || ((65 <=? n)%nat && (n <=? 90)%nat)
  || ((97 <=? n)%nat && (n <=? 122)%nat).

Fixpoint forallb_char (p : ascii -> bool) (s : string) : bool :=
  match s with
  | EmptyString => true
  | String c s' => p c && forallb_char p s'
  end.

End PyStr.

(* ===================================================================== *)
(** * Code extraction from the model's reply ([generate_analysis_code]) *)
(* ===================================================================== *)

Definition fence : string := "```".
Definition python_fence : string := "```python".

(** Lines 233-239 of the source: the three-way choice on the raw reply. *)
Definition extract_code (response : string) : string :=
  if PyStr.contains python_fence response then
    PyStr.strip
      (PyStr.item (PyStr.split fence
         (PyStr.item (PyStr.split python_fence response) 1)) 0)
  else if PyStr.contains fence response then
    PyStr.strip
      (PyStr.item (PyStr.split fence
         (PyStr.item (PyStr.split fence response) 1)) 0)
  else PyStr.strip response.


(** The text before the leftmost [sep], or all of [s] when there is none:
    what [s.split(sep)[0]] reads. *)
Definition before (sep s : string) : string :=
  match PyStr.cut sep s with
  | Some (a, _) => a
  | None => s
  end.

(** What the source computes before trimming, in terms of leftmost
    occurrences: a tagged block is first delimited by the next tag, then
    by the first fence. *)
Definition extraction_result (response : string) : string :=
  match PyStr.cut python_fence response with
  | Some (_, rest) => before fence (before python_fence rest)
  | None =>
      match PyStr.cut fence response with
      | Some (_, rest) => before fence rest
      | None => response
      end
  end.

(** The extraction policy in the specification's words, on the raw text:
    the content of a fenced block is what stands between its opening
    marker and the next fence. *)
Definition fenced_content (opening response : string) : option string :=
  match PyStr.cut opening response with
  | Some (_, rest) => Some (before fence rest)
  | None => None
  end.

Definition extraction_policy (response : string) : string :=
  match fenced_content python_fence response with
  | Some body => body
  | None =>
      match fenced_content fence response with
      | Some body => body
      | None => response
      end
  end.

(* ===================================================================== *)
(** * Values, exceptions and records *)
(* ===================================================================== *)

(** Instances of Python's [Exception], the class both [except] clauses of
    the server catch.  [HTTPException] is FastAPI's; every other exception
    is kept by the text [str(e)] gives. *)
Inductive exn :=
| HTTPException (status_code : Z) (detail : string)
| PyException (message : string).

(** What a [raise] can carry: an instance of [Exception], or a
    [BaseException] that is not one ([SystemExit], [KeyboardInterrupt],
    [GeneratorExit]), kept by its class name.  An [except Exception] clause
    catches the first kind and lets the second through. *)
Inductive raised :=
| Exception (e : exn)
| BaseException (name : string).

Coercion Exception : exn >-> raised.

Inductive outcome_of (E A : Type) :=
| Returns (a : A)
| Raises (e : E).

Arguments Returns {E A} a.
Arguments Raises {E A} e.

(** How a library call ends: pandas, PyPDF2, PIL, the model client, the
    database driver and the file system raise instances of [Exception]. *)
Abbreviation outcome := (outcome_of exn).

(** How the server's own code ends.  The code [exec] runs is arbitrary and
    can raise anything, [SystemExit] included. *)
Abbreviation ending := (outcome_of raised).

Definition widen {A} (o : outcome A) : ending A :=
  match o with
  | Returns a => Returns a
  | Raises e => Raises (Exception e)
  end.

(** A pandas frame, by what the server reads from it. *)
Record DataFrame := {
  columns : list string;
  rows : list (list string)
}.

Definition shape (df : DataFrame) : nat * nat :=
  (length (rows df), length (columns df)).

#[warnings="-register-all"]
Inductive pyval :=
| PNone
| PStr (s : string)
| PInt (z : Z)
| PFloat (f : float)
| PList (l : list pyval)
| PDict (d : gmap string pyval)
| PFrame (df : DataFrame)
| PBuiltin (name : string)
| PModule (name : string)
| PFunction (name : string).

Record UploadFile := {
  filename : string;
  file : list Byte.byte
}.

(** The entries of [file_info], one record per dict literal of the source. *)
Record DataFrameEntry := {
  df_name : string;
  df_shape : nat * nat;
  df_columns : list string;
  df_filename : string
}.

Record TextEntry := {
  text_name : string;
  text_filename : string;
  text_length : nat
}.

Record ImageEntry := {
  img_name : string;
  img_filename : string;
  img_info : gmap string pyval
}.

Record FileInfo := {
  files : list string;
  dataframes : list DataFrameEntry;
  text_content : list TextEntry;
  images : list ImageEntry
}.

Record AnalysisRequest := {
  req_task_id : string;
  req_timestamp : string;
  req_question : string;
  req_files_processed : list string;
  req_status : string
}.

Record AnalysisResult := {
  task_id : string;
  result : pyval;
  execution_time : float;
  status : string;
  error : option string
}.

(* ===================================================================== *)
(** * The libraries and the environment *)
(* ===================================================================== *)

(** One field per call into code that is not the server's own.  Files are
    read back right after they are written, so a reader is given the path
    and the bytes just saved there. *)
Class Libraries := {
  (** [str(e)] for an [HTTPException], as Starlette defines it *)
  http_exception_str : Z → string → string;
  (** [bytes.decode('utf-8')] *)
  utf8_decode : list Byte.byte → outcome string;
  (** [str(Path(temp_dir) / filename)] *)
  path_join : string → string → string;
  (** [open(file_path, "wb")] and [shutil.copyfileobj] *)
  save_upload : string → list Byte.byte → option exn;
  (** [pd.read_csv(file_path)] *)
  pd_read_csv : string → list Byte.byte → outcome DataFrame;
  (** [open] and [PyPDF2.PdfReader(file).pages], then what each page's
      [extract_text()] does *)
  pdf_reader : string → list Byte.byte → outcome (list (outcome string));
  (** [Image.open(file_path)]: format, size, mode *)
  image_open : string → list Byte.byte → outcome (string * (nat * nat) * string);
  (** [open(file_path, 'r', encoding='utf-8').read()] *)
  read_text : string → list Byte.byte → outcome string;
  (** [LlmChat(...).with_model(...)] and [chat.send_message(...)], given
      the question and the file summary the prompt is built from *)
  llm_send_message : string → FileInfo → outcome string;
  (** [exec(code, globals, local_vars)]: the local scope it leaves, or
      what it raises *)
  py_exec : string → gmap string pyval → ending (gmap string pyval);
  (** whether FastAPI's encoder can write the value into the JSON body of
      the response *)
  jsonable_encoder : pyval → bool
}.

(** What one request reads from its surroundings. *)
Record Env := {
  loop_time_start : float;
  loop_time_end : float;
  uuid4 : string;
  utcnow : string;
  mkdtemp_result : outcome string;
  insert_one_result : option exn
}.

(** The request log collection and the temporary directories on disk. *)
Record World := {
  analysis_requests : list AnalysisRequest;
  workspaces : gset string
}.

(** Computations of the handler: state passing with exceptions; the state
    survives a raise. *)
Definition M (A : Type) : Type := World → ending A * World.

Definition ret {A} (a : A) : M A := λ w, (Returns a, w).

Definition bind {A B} (m : M A) (k : A → M B) : M B :=
  λ w, match m w with
       | (Returns a, w') => k a w'
       | (Raises e, w') => (Raises e, w')
       end.

Definition lift {A} (o : ending A) : M A := λ w, (o, w).

(** [try: body / except Exception as e: handler e] *)
Definition try_except {A} (body : M A) (handler : exn → M A) : M A :=
  λ w, match body w with
       | (Returns a, w') => (Returns a, w')
       | (Raises (Exception e), w') => handler e w'
       | (Raises (BaseException name), w') => (Raises (BaseException name), w')
       end.

(** [try: body / finally: cleanup] *)
Definition try_finally {A} (body : M A) (cleanup : M unit) : M A :=
  λ w, match body w with
       | (o, w') =>
           match cleanup w' with
           | (Returns _, w'') => (o, w'')
           | (Raises e, w'') => (Raises e, w'')
           end
       end.

#[global] Instance M_ret : MRet M := @ret.

#[global] Instance M_bind : MBind M := λ A B k m, bind m k.

(** [tempfile.mkdtemp()] *)
Definition mkdtemp (env : Env) : M string :=
  λ w, match mkdtemp_result env with
       | Returns d =>
           (Returns d, {| analysis_requests := analysis_requests w;
                          workspaces := {[d]} ∪ workspaces w |})
       | Raises e => (Raises (Exception e), w)
       end.

(** [shutil.rmtree(temp_dir, ignore_errors=True)] *)
Definition rmtree (temp_dir : string) : M unit :=
  λ w, (Returns tt, {| analysis_requests := analysis_requests w;
                       workspaces := workspaces w ∖ {[temp_dir]} |}).

(** [db.analysis_requests.insert_one(doc)] *)
Definition insert_one (env : Env) (doc : AnalysisRequest) : M unit :=
  λ w, match insert_one_result env with
       | None =>
           (Returns tt, {| analysis_requests := analysis_requests w ++ [doc];
                           workspaces := workspaces w |})
       | Some e => (Raises (Exception e), w)
       end.

(* ===================================================================== *)
(** * File processing utilities *)
(* ===================================================================== *)

Definition newline : string := String "010"%char "".

Section Server.

Context {L : Libraries}.

(** [str(e)] *)
Definition str (e : exn) : string :=
  match e with
  | HTTPException status_code detail => http_exception_str status_code detail
  | PyException message => message
  end.

Definition process_csv_file (file_path : string) (bytes : list Byte.byte)
  : outcome DataFrame :=
  match pd_read_csv file_path bytes with
  | Returns df => Returns df
  | Raises e =>
      Raises (HTTPException 400 ("Error processing CSV: " +:+ str e))
  end.

(** The loop [for page in pdf_reader.pages: text += page.extract_text() + "\n"] *)
Fixpoint extract_pages (pages : list (outcome string)) (text : string)
  : outcome string :=
  match pages with
  | [] => Returns text
  | Returns page_text :: pages' =>
      extract_pages pages' (text +:+ (page_text +:+ newline))
  | Raises e :: _ => Raises e
  end.

Definition process_pdf_file (file_path : string) (bytes : list Byte.byte)
  : string :=
  match pdf_reader file_path bytes with
  | Returns pages =>
      match extract_pages pages "" with
      | Returns text => text
      | Raises _ => ""
      end
  | Raises _ => ""
  end.

Definition process_image_file (file_path : string) (bytes : list Byte.byte)
  : gmap string pyval :=
  match image_open file_path bytes with
  | Returns (format, (width, height), mode) =>
      list_to_map
        [("format", PStr format);
         ("size", PList [PInt (Z.of_nat width); PInt (Z.of_nat height)]);
         ("mode", PStr mode)]
  | Raises _ => ∅
  end.

(* ===================================================================== *)
(** * The execution sandbox *)
(* ===================================================================== *)

Definition allowed_builtins : list string :=
  ["print"; "len"; "str"; "int"; "float"; "list"; "dict"; "tuple"; "range";
   "enumerate"; "zip"; "min"; "max"; "sum"; "abs"; "round"; "sorted"].

Definition builtins_dict : gmap string pyval :=
  list_to_map ((λ name, (name, PBuiltin name)) <$> allowed_builtins).

Definition safe_globals : gmap string pyval :=
  list_to_map
    [("__builtins__", PDict builtins_dict);
     ("pd", PModule "pandas");
     ("np", PModule "numpy");
     ("plt", PModule "matplotlib.pyplot");
     ("go", PModule "plotly.graph_objects");
     ("px", PModule "plotly.express");
     ("requests", PModule "requests");
     ("BeautifulSoup", PModule "bs4.BeautifulSoup");
     ("base64", PModule "base64");
     ("BytesIO", PModule "io.BytesIO");
     ("create_plot_base64", PFunction "create_plot_base64");
     ("scrape_wikipedia_table", PFunction "scrape_wikipedia_table")].

(** [safe_globals.update(context)]: the context's bindings win. *)
Definition execution_namespace (context : gmap string pyval)
  : gmap string pyval :=
  context ∪ safe_globals.

Definition no_result_message : string :=
  "Code executed successfully but no result variable found".

Definition execute_analysis_code (code : string) (context : gmap string pyval)
  : ending pyval :=
  match py_exec code (execution_namespace context) with
  | Returns local_vars =>
      match local_vars !! "result" with
      | Some v => Returns v
      | None => Returns (PStr no_result_message)
      end
  | Raises (Exception e) =>
      Raises (Exception
                (HTTPException 500 ("Code execution error: " +:+ str e)))
  | Raises (BaseException name) => Raises (BaseException name)
  end.

Definition generate_analysis_code (question : string) (file_info : FileInfo)
  : outcome string :=
  match llm_send_message question file_info with
  | Returns response => Returns (extract_code response)
  | Raises e =>
      Raises (HTTPException 500 ("LLM code generation error: " +:+ str e))
  end.

(* ===================================================================== *)
(** * The analysis endpoint *)
(* ===================================================================== *)

(** The f-strings [f"df_{...}"], [f"text_{...}"], [f"img_path_{...}"] over
    [file.filename.replace('.', '_').replace('-', '_')]. *)
Definition var_name (prefix filename : string) : string :=
  prefix +:+ PyStr.replace "-" "_" (PyStr.replace "." "_" filename).

(** [file.filename.lower().endswith(('.png', '.jpg', '.jpeg'))] *)
Definition is_image (filename : string) : bool :=
  let lowered := PyStr.lower filename in
  PyStr.endswith ".png" lowered || PyStr.endswith ".jpg" lowered
  || PyStr.endswith ".jpeg" lowered.

Definition empty_file_info : FileInfo :=
  {| files := []; dataframes := []; text_content := []; images := [] |}.

Definition add_dataframe (e : DataFrameEntry) (i : FileInfo) : FileInfo :=
  {| files := files i; dataframes := dataframes i ++ [e];
     text_content := text_content i; images := images i |}.

Definition add_text (e : TextEntry) (i : FileInfo) : FileInfo :=
  {| files := files i; dataframes := dataframes i;
     text_content := text_content i ++ [e]; images := images i |}.

Definition add_image (e : ImageEntry) (i : FileInfo) : FileInfo :=
  {| files := files i; dataframes := dataframes i;
     text_content := text_content i; images := images i ++ [e] |}.

Definition add_file (name : string) (i : FileInfo) : FileInfo :=
  {| files := files i ++ [name]; dataframes := dataframes i;
     text_content := text_content i; images := images i |}.

(** The [if]/[elif]/[else] on the file type, lines 282-326. *)
Definition bind_file (file_path : string) (f : UploadFile)
    (file_context : gmap string pyval) (file_info : FileInfo)
  : outcome (gmap string pyval * FileInfo) :=
  if PyStr.endswith ".csv" (filename f) then
    match process_csv_file file_path (file f) with
    | Returns df =>
        let name := var_name "df_" (filename f) in
        Returns (<[name := PFrame df]> file_context,
                 add_dataframe {| df_name := name; df_shape := shape df;
                                  df_columns := columns df;
                                  df_filename := filename f |} file_info)
    | Raises e => Raises e
    end
  else if PyStr.endswith ".pdf" (filename f) then
    let text := process_pdf_file file_path (file f) in
    let name := var_name "text_" (filename f) in
    Returns (<[name := PStr text]> file_context,
             add_text {| text_name := name; text_filename := filename f;
                         text_length := String.length text |} file_info)
  else if is_image (filename f) then
    let info := process_image_file file_path (file f) in
    let name := var_name "img_path_" (filename f) in
    Returns (<[name := PStr file_path]> file_context,
             add_image {| img_name := name; img_filename := filename f;
                          img_info := info |} file_info)
  else
    match read_text file_path (file f) with
    | Returns content =>
        let name := var_name "text_" (filename f) in
        Returns (<[name := PStr content]> file_context,
                 add_text {| text_name := name; text_filename := filename f;
                             text_length := String.length content |} file_info)
    | Raises _ => Returns (file_context, file_info)
    end.

(** One turn of [for file in files], lines 275-328. *)
Definition process_file (temp_dir : string)
    (st : gmap string pyval * FileInfo) (f : UploadFile)
  : outcome (gmap string pyval * FileInfo) :=
  let file_path := path_join temp_dir (filename f) in
  match save_upload file_path (file f) with
  | Some e => Raises e
  | None =>
      match bind_file file_path f (fst st) (snd st) with
      | Returns (file_context, file_info) =>
          Returns (file_context, add_file (filename f) file_info)
      | Raises e => Raises e
      end
  end.

Fixpoint process_files (temp_dir : string)
    (st : gmap string pyval * FileInfo) (fs : list UploadFile)
  : outcome (gmap string pyval * FileInfo) :=
  match fs with
  | [] => Returns st
  | f :: fs' =>
      match process_file temp_dir st f with
      | Returns st' => process_files temp_dir st' fs'
      | Raises e => Raises e
      end
  end.

(** The body of the inner [try], lines 265-353. *)
Definition run_analysis (env : Env) (temp_dir questions_text : string)
    (uploads : list UploadFile) : M AnalysisResult :=
  st ← lift (widen (process_files temp_dir (∅, empty_file_info) uploads));
  analysis_code ← lift (widen (generate_analysis_code questions_text (snd st)));
  value ← lift (execute_analysis_code analysis_code (fst st));
  _ ← insert_one env
        {| req_task_id := uuid4 env; req_timestamp := utcnow env;
           req_question := questions_text;
           req_files_processed := files (snd st);
           req_status := "completed" |};
  mret {| task_id := uuid4 env; result := value;
          execution_time :=
            PrimFloat.sub (loop_time_end env) (loop_time_start env);
          status := "completed"; error := None |}.

(** [analyze_data(questions, files)], lines 248-369. *)
Definition analyze_data (env : Env) (questions : UploadFile)
    (uploads : list UploadFile) : M AnalysisResult :=
  try_except
    (questions_text ← lift (widen (utf8_decode (file questions)));
     temp_dir ← mkdtemp env;
     try_finally (run_analysis env temp_dir questions_text uploads)
                 (rmtree temp_dir))
    (λ e, mret {| task_id := uuid4 env; result := PNone;
                  execution_time :=
                    PrimFloat.sub (loop_time_end env) (loop_time_start env);
                  status := "error"; error := Some (str e) |}).

(** The record and the envelope the two endings of a request build. *)
Definition completed_record (env : Env) (questions_text : string)
    (names : list string) : AnalysisRequest :=
  {| req_task_id := uuid4 env; req_timestamp := utcnow env;
     req_question := questions_text; req_files_processed := names;
     req_status := "completed" |}.

Definition error_envelope (env : Env) (e : exn) : AnalysisResult :=
  {| task_id := uuid4 env; result := PNone;
     execution_time := PrimFloat.sub (loop_time_end env) (loop_time_start env);
     status := "error"; error := Some (str e) |}.

End Server.

(** JSON values FastAPI writes as they are. *)
Definition json_scalar (v : pyval) : bool :=
  match v with
  | PNone | PStr _ | PInt _ => true
  | _ => false
  end.

(** The status line FastAPI answers with.  When the handler returns its
    envelope the framework encodes it: 200 when the result can be encoded,
    500 when it cannot.  An [HTTPException] that leaves the handler gives
    its own code, any other [Exception] 500.  A [BaseException] is not
    answered by the framework: it goes on to the server that runs it. *)
Definition response_status {L : Libraries} (o : ending AnalysisResult)
  : option Z :=
  match o with
  | Returns r =>
      if json_scalar (result r) || jsonable_encoder (result r)
      then Some 200 else Some 500
  | Raises (Exception (HTTPException status_code _)) => Some status_code
  | Raises (Exception (PyException _)) => Some 500
  | Raises (BaseException _) => None
  end.

(* ===================================================================== *)
(** * Notions the statements use *)
(* ===================================================================== *)

(** The prefixes of the three f-strings that name a file's variable. *)
Definition file_prefixes : list string := ["df_"; "text_"; "img_path_"].

(** A name the file loop can bind: one that starts with such a prefix. *)
Definition file_key (k : string) : Prop :=
  ∃ prefix, prefix ∈ file_prefixes ∧ PyStr.startswith prefix k = true.

(** What the two [replace] calls do to one character. *)
Definition replaced_char (c : ascii) : ascii :=
  if Ascii.eqb c "." || Ascii.eqb c "-" then "_"%char else c.

(** Every page's text followed by a newline. *)
Fixpoint pages_text (texts : list string) : string :=
  match texts with
  | [] => ""
  | page_text :: texts' => page_text +:+ newline +:+ pages_text texts'
  end.

(** Builtins that open files, import modules or run code. *)
Definition unsafe_builtins : list string :=
  ["open"; "__import__"; "exec"; "eval"; "compile"; "input"].

(* ===================================================================== *)
(** * A concrete environment for the examples *)
(* ===================================================================== *)

(** Libraries that behave simply enough to evaluate: an empty CSV fails to
    parse as pandas does on it, a PDF has one page per byte, the byte
    [0xff] is where page extraction fails and, in front, where decoding
    fails, the model answers
    with the question in a tagged block, and the interpreter knows three
    programs: one that sets [result], one that sets another name, and one
    that leaves through [sys.exit], reached over the [plt] handle. *)
Definition has_bad_byte (bytes : list Byte.byte) : bool :=
  match bytes with
  | b :: _ => Byte.eqb Byte.xff b
  | [] => false
  end.

Definition demo_decode (bytes : list Byte.byte) : outcome string :=
  if has_bad_byte bytes
  then Raises (PyException "'utf-8' codec can't decode byte 0xff in position 0: invalid start byte")
  else Returns (string_of_list_byte bytes).

Definition demo_page (b : Byte.byte) : outcome string :=
  if Byte.eqb Byte.xff b
  then Raises (PyException "unsupported page encoding")
  else Returns (string_of_list_byte [b]).

Definition demo_libraries : Libraries := {|
  http_exception_str := λ status_code detail,
    pretty status_code +:+ ": " +:+ detail;
  utf8_decode := demo_decode;
  path_join := λ temp_dir name, temp_dir +:+ "/" +:+ name;
  save_upload := λ _ _, None;
  pd_read_csv := λ _ bytes,
    match bytes with
    | [] => Raises (PyException "No columns to parse from file")
    | _ => Returns {| columns := ["name"; "salary"];
                      rows := [["Ann"; "50000"]; ["Bob"; "70000"]] |}
    end;
  pdf_reader := λ _ bytes,
    match bytes with
    | [] => Raises (PyException "Cannot read an empty file")
    | _ => Returns (demo_page <$> bytes)
    end;
  image_open := λ _ bytes,
    match bytes with
    | [] => Raises (PyException "cannot identify image file")
    | _ => Returns ("PNG", (2, 3)%nat, "RGB")
    end;
  read_text := λ _ bytes, demo_decode bytes;
  llm_send_message := λ question _,
    Returns ("```python" +:+ newline +:+ question +:+ newline +:+ "```");
  py_exec := λ code _,
    if decide (code = "result = 4")
    then Returns {["result" := PInt 4]}
    else if decide (code = "x = 1")
    then Returns {["x" := PInt 1]}
    else if decide (code = "plt.sys.exit(3)")
    then Raises (BaseException "SystemExit")
    else Raises (Exception (PyException "division by zero"));
  jsonable_encoder := λ v,
    match v with
    | PList [] => true
    | _ => false
    end
|}.

Definition demo_env : Env := {|
  loop_time_start := 10%float;
  loop_time_end := 12.5%float;
  uuid4 := "0b0e7f2c-6d1a-4c57-9a55-3f1f0c9a2b11";
  utcnow := "2024-05-01T09:30:00";
  mkdtemp_result := Returns "/tmp/tmpk3x9";
  insert_one_result := None
|}.

Definition demo_world : World :=
  {| analysis_requests := []; workspaces := ∅ |}.

(** An upload that is not text: it holds the byte [0xff]. *)
Definition binary_upload : UploadFile :=
  {| filename := "blob.bin"; file := [Byte.xff; Byte.xd8; Byte.xff] |}.

(** A disk on which another request's workspace is present. *)
Definition busy_world : World :=
  {| analysis_requests := []; workspaces := {["/tmp/tmpa000"]} |}.

Definition upload (name content : string) : UploadFile :=
  {| filename := name; file := list_byte_of_string content |}.

(** The context and summary the file loop builds for [uploads] in the
    example workspace. *)
Definition demo_files_state (uploads : list UploadFile)
  : gmap string pyval * FileInfo :=
  match @process_files demo_libraries "/tmp/tmpk3x9" (∅, empty_file_info) uploads with
  | Returns st => st
  | Raises _ => (∅, empty_file_info)
  end.

Definition empty_csv_request : list UploadFile := [upload "sales.csv" ""].

(* ===================================================================== *)
(** * The claims in the specification's wording *)
(* ===================================================================== *)

(** C6, as stated: extraction returns the content of the tagged block, else
    of the first block, else the entire response. *)
Definition extraction_as_stated : Prop :=
  ∀ response : string, extract_code response = extraction_policy response.

(** C1, as stated. *)
Definition malformed_csv {L : Libraries} (f : UploadFile) : Prop :=
  PyStr.endswith ".csv" (filename f) = true
  ∧ ∀ file_path, ∃ e, pd_read_csv file_path (file f) = Raises e.

Definition client_error (status_code : Z) : Prop :=
  400 ≤ status_code < 500.

Definition malformed_csv_as_stated : Prop :=
  ∀ (L : Libraries) env questions uploads w f,
    f ∈ uploads → malformed_csv f →
    (∃ status_code,
        response_status (analyze_data env questions uploads w).1
        = Some status_code
        ∧ client_error status_code)
    ∧ analysis_requests (analyze_data env questions uploads w).2
      = analysis_requests w.

(** C2, as stated. *)
Definition one_record_as_stated : Prop :=
  ∀ (L : Libraries) env questions uploads w r w',
    analyze_data env questions uploads w = (Returns r, w') →
    status r = "completed" ∨ status r = "error" →
    ∃ doc, analysis_requests w' = analysis_requests w ++ [doc].

(** C3, as stated: whatever the generated code raises. *)
Definition sandbox_exception_as_stated : Prop :=
  ∀ (L : Libraries) env questions uploads w questions_text temp_dir code
    (st : gmap string pyval * FileInfo) (x : raised),
    utf8_decode (file questions) = Returns questions_text →
    mkdtemp_result env = Returns temp_dir →
    process_files temp_dir (∅, empty_file_info) uploads = Returns st →
    generate_analysis_code questions_text st.2 = Returns code →
    py_exec code (execution_namespace st.1) = Raises x →
    ∃ r,
      (analyze_data env questions uploads w).1 = Returns r
      ∧ response_status (analyze_data env questions uploads w).1 = Some 200
      ∧ status r = "error"
      ∧ result r = PNone
      ∧ is_Some (error r).

(** C7, as stated: the pages' texts joined with a newline between them. *)
Definition pdf_text_as_stated : Prop :=
  ∀ (L : Libraries) file_path bytes texts,
    pdf_reader file_path bytes = Returns (Returns <$> texts) →
    process_pdf_file file_path bytes = String.concat newline texts.

(** C8, as stated. *)
Definition identifier_char (c : ascii) : bool :=
  PyStr.isalnum c || Ascii.eqb c "_".

Definition var_name_as_stated : Prop :=
  ∀ prefix name : string,
    prefix ∈ file_prefixes →
    PyStr.forallb_char identifier_char (var_name prefix name) = true
    ∧ var_name prefix name ∉ dom safe_globals.

(* ===================================================================== *)
(** * The rest of the server: listing, scraping, plot encoding *)
(* ===================================================================== *)

(** [get_analysis_tasks()]: [db.analysis_requests.find().to_list(100)],
    the collection read in stored order; the [AnalysisRequest] built from
    each stored document is the record as it was written. *)
Definition get_analysis_tasks (w : World) : list AnalysisRequest :=
  take 100 (analysis_requests w).

(** The calls the two helper functions make into code that is not the
    server's own. *)
Class WebLibraries := {
  (** [requests.get(url)], by the [content] of the response *)
  requests_get : string → outcome (list Byte.byte);
  (** [BeautifulSoup(response.content, 'html.parser')] *)
  beautiful_soup : list Byte.byte → option exn;
  (** [pd.read_html(url)] *)
  pd_read_html : string → outcome (list DataFrame);
  (** [base64.b64encode(data).decode()] *)
  b64encode : list Byte.byte → string
}.

(** The object passed as [fig], by what [create_plot_base64] does with
    it: [to_image] is what [hasattr(fig, 'to_image')] finds (Plotly has
    it), [savefig] gives the bytes it writes into the buffer, [is_figure]
    says whether it is a matplotlib [Figure], the kind of object
    [plt.close] takes. *)
Record Figure := {
  fig_number : nat;
  to_image : option (string → outcome (list Byte.byte));
  savefig : string → outcome (list Byte.byte);
  is_figure : bool
}.

(** [plt.close(fig)]: a [Figure] is closed (and everything pyplot holds
    open is one); for any other object pyplot raises [TypeError]. *)
Definition pyplot_close (fig : Figure) (open_figures : gset nat)
  : outcome (gset nat) :=
  if is_figure fig || bool_decide (fig_number fig ∈ open_figures)
  then Returns (open_figures ∖ {[fig_number fig]})
  else Raises (PyException "close() argument must be a Figure, an int, a string, or None").

Section Helpers.

Context {L : Libraries} {W : WebLibraries}.

(** The body of the [try] of [scrape_wikipedia_table], lines 119-127. *)
Definition first_table (url : string) : outcome DataFrame :=
  match requests_get url with
  | Raises e => Raises e
  | Returns content =>
      match beautiful_soup content with
      | Some e => Raises e
      | None =>
          match pd_read_html url with
          | Raises e => Raises e
          | Returns (table :: _) => Returns table
          | Returns [] =>
              Raises (HTTPException 404 "No tables found on the webpage")
          end
      end
  end.

Definition scrape_wikipedia_table (url : string) : outcome DataFrame :=
  match first_table url with
  | Returns table => Returns table
  | Raises e => Raises (HTTPException 400 ("Error scraping data: " +:+ str e))
  end.

(** The f-string [f"data:image/{format_type};base64,{img_base64}"]. *)
Definition data_uri (format_type img_base64 : string) : string :=
  "data:image/" +:+ format_type +:+ ";base64," +:+ img_base64.

(** [create_plot_base64(fig, format_type)], threading the set of figures
    pyplot holds open, which [plt.close(fig)] shrinks. *)
Definition create_plot_base64 (fig : Figure) (format_type : string)
    (open_figures : gset nat) : string * gset nat :=
  match to_image fig with
  | Some render =>
      match render format_type with
      | Returns img_bytes =>
          (data_uri format_type (b64encode img_bytes), open_figures)
      | Raises _ => ("", open_figures)
      end
  | None =>
      match savefig fig format_type with
      | Returns written =>
          match pyplot_close fig open_figures with
          | Returns still_open =>
              (data_uri format_type (b64encode written), still_open)
          | Raises _ => ("", open_figures)
          end
      | Raises _ => ("", open_figures)
      end
  end.

End Helpers.

(* ===================================================================== *)
(** * Further notions the statements use *)
(* ===================================================================== *)

(** The variable names the file summary announces to the model. *)
Definition descriptor_names (i : FileInfo) : list string :=
  (df_name <$> dataframes i) ++ (text_name <$> text_content i)
  ++ (img_name <$> images i).

(** A string without the backtick character. *)
Definition backtick_free (s : string) : bool :=
  PyStr.forallb_char (λ c, negb (Ascii.eqb c "`")) s.

(** The first and the last character, if any. *)
Definition first_char (s : string) : option ascii := String.get 0 s.

Fixpoint last_char (s : string) : option ascii :=
  match s with
  | EmptyString => None
  | String c s' =>
      match last_char s' with
      | Some d => Some d
      | None => Some c
      end
  end.

(** The frame the example pandas returns for any non-empty file. *)
Definition demo_frame : DataFrame :=
  {| columns := ["name"; "salary"];
     rows := [["Ann"; "50000"]; ["Bob"; "70000"]] |}.

(** The example libraries with a model that is out of quota. *)
Definition quota_libraries : Libraries := {|
  http_exception_str := @http_exception_str demo_libraries;
  utf8_decode := @utf8_decode demo_libraries;
  path_join := @path_join demo_libraries;
  save_upload := @save_upload demo_libraries;
  pd_read_csv := @pd_read_csv demo_libraries;
  pdf_reader := @pdf_reader demo_libraries;
  image_open := @image_open demo_libraries;
  read_text := @read_text demo_libraries;
  llm_send_message := λ _ _, Raises (PyException "quota exceeded");
  py_exec := @py_exec demo_libraries;
  jsonable_encoder := @jsonable_encoder demo_libraries
|}.

(** The example environment with a database that refuses the write. *)
Definition database_down_env : Env := {|
  loop_time_start := 10%float;
  loop_time_end := 12.5%float;
  uuid4 := "5d3c1a90-0f4e-4b6a-8c2d-7e9f1b2a3c4d";
  utcnow := "2024-05-01T09:31:00";
  mkdtemp_result := Returns "/tmp/tmpk3x9";
  insert_one_result := Some (PyException "connection closed")
|}.

(** A log that already holds 100 records. *)
Definition crowded_world : World :=
  {| analysis_requests :=
       replicate 100 {| req_task_id := "00000000-0000-4000-8000-000000000000";
                        req_timestamp := "2024-04-30T12:00:00";
                        req_question := "what is 2+2";
                        req_files_processed := [];
                        req_status := "completed" |};
     workspaces := ∅ |}.

(** Examples for the helper functions. *)
Definition demo_web : WebLibraries := {|
  requests_get := λ url,
    if decide (url = "https://offline.example")
    then Raises (PyException "Connection refused")
    else Returns (list_byte_of_string "<html></html>");
  beautiful_soup := λ _, None;
  pd_read_html := λ url,
    if decide (url = "https://en.wikipedia.org/wiki/Table")
    then Returns [{| columns := ["Country"; "Population"];
                     rows := [["India"; "1428"]] |};
                  {| columns := ["Rank"]; rows := [] |}]
    else Raises (PyException "No tables found");
  b64encode := λ bytes,
    match bytes with
    | [] => ""
    | _ => "aGk="
    end
|}.

Definition plotly_figure : Figure :=
  {| fig_number := 1;
     to_image := Some (λ _, Returns (list_byte_of_string "hi"));
     savefig := λ _, Raises (PyException "'Figure' object has no attribute 'savefig'");
     is_figure := false |}.

Definition matplotlib_figure : Figure :=
  {| fig_number := 2; to_image := None;
     savefig := λ format_type,
       if decide (format_type = "png")
       then Returns (list_byte_of_string "hi")
       else Raises (PyException "Format is not supported");
     is_figure := true |}.

(** The [plt] module passed in place of a figure: [plt.savefig] writes the
    current figure, and [plt.close(plt)] raises [TypeError]. *)
Definition pyplot_module : Figure :=
  {| fig_number := 0; to_image := None;
     savefig := λ _, Returns (list_byte_of_string "hi");
     is_figure := false |}.
(* ===================================================================== *)
(** * Facts about the string methods *)
(* ===================================================================== *)

Section SplitFacts.

Import PyStr.

Lemma startswith_app (p s t : string) :
  startswith p s = true → startswith p (s +:+ t) = true.
Proof.
  revert s; induction p as [|a p IH]; intros [|b s]; simpl; try done.
  destruct (Ascii.eqb a b); [apply IH | done].
Qed.

Lemma startswith_drop (p s : string) :
  startswith p s = true → s = p +:+ drop (String.length p) s.
Proof.
  revert s; induction p as [|a p IH]; intros [|b s]; simpl; try done.
  destruct (Ascii.eqb_spec a b) as [->|]; [|done].
  intros E. unfold String.app; simpl. f_equal. by apply IH.
Qed.

Lemma cut_spec (sep s a b : string) :
  cut sep s = Some (a, b) → s = a +:+ sep +:+ b.
Proof.
  revert a b; induction s as [|c s IH]; intros a b; simpl.
  - destruct (startswith sep "") eqn:E; [|done].
    intros [= <- <-]. by apply startswith_drop in E.
  - destruct (startswith sep (String c s)) eqn:E.
    + intros [= <- <-]. by apply startswith_drop in E.
    + destruct (cut sep s) as [[a' b']|] eqn:C; [|done].
      intros [= <- <-]. unfold String.app; simpl. f_equal. by apply IH.
Qed.

Lemma contains_cut (p s : string) :
  contains p s = true ↔ is_Some (cut p s).
Proof.
  induction s as [|c s IH]; simpl.
  - destruct (startswith p ""); split; try done; eauto.
  - destruct (startswith p (String c s)); [split; eauto|].
    rewrite IH. destruct (cut p s) as [[a b]|]; split; eauto.
    all: by intros [? ?].
Qed.

Lemma contains_false_cut (p s : string) :
  contains p s = false ↔ cut p s = None.
Proof.
  rewrite <- not_true_iff_false, contains_cut, <- eq_None_not_Some. done.
Qed.

(** The text before the leftmost occurrence holds no occurrence. *)
Lemma cut_before_none (sep s a b : string) :
  sep ≠ "" → cut sep s = Some (a, b) → cut sep a = None.
Proof.
  intros Hne. revert a b; induction s as [|c s IH]; intros a b; simpl.
  - destruct (startswith sep "") eqn:E; [|done].
    intros [= <- <-]. by destruct sep.
  - destruct (startswith sep (String c s)) eqn:E.
    + intros [= <- <-]. by destruct sep.
    + destruct (cut sep s) as [[a' b']|] eqn:C; [|done].
      intros [= <- <-]. simpl.
      destruct (startswith sep (String c a')) eqn:E'.
      * apply cut_spec in C. subst s.
        apply (startswith_app _ _ (sep +:+ b')) in E'.
        unfold String.app in *; simpl in *. congruence.
      * by rewrite (IH a' b').
Qed.

Lemma before_idem (sep s : string) :
  sep ≠ "" → before sep (before sep s) = before sep s.
Proof.
  intros Hne. unfold before at 2 3.
  destruct (cut sep s) as [[a b]|] eqn:C; unfold before.
  - by rewrite (cut_before_none _ _ _ _ Hne C).
  - by rewrite C.
Qed.

(** [s.split(sep)[0]] *)
Lemma item_split_go_0 (n : nat) (sep s : string) :
  item (split_go n sep s) 0 = before sep s.
Proof.
  unfold before.
  destruct n; simpl; destruct (cut sep s) as [[a b]|]; done.
Qed.

Lemma item_split_0 (sep s : string) : item (split sep s) 0 = before sep s.
Proof. apply item_split_go_0. Qed.

(** [s.split(sep)[1]] when [sep in s]: the text between the first and the
    second occurrence. *)
Lemma item_split_1 (sep s a b : string) :
  cut sep s = Some (a, b) → item (split sep s) 1 = before sep b.
Proof.
  intros C. unfold split.
  destruct s as [|c s]; simpl String.length.
  - simpl in C. destruct (startswith sep "") eqn:E; [|done].
    injection C as <- <-.
    assert (sep = "") as -> by (by destruct sep). done.
  - cbn [split_go]. rewrite C. cbn [item nth].
    apply item_split_go_0.
Qed.

Lemma string_length_app (a b : string) :
  String.length (a +:+ b) = (String.length a + String.length b)%nat.
Proof.
  induction a as [|x a IH]; [done|].
  unfold String.app in *; simpl. by rewrite IH.
Qed.

Lemma cut_shorter (sep s a b : string) :
  sep ≠ "" → cut sep s = Some (a, b) →
  (String.length b < String.length s)%nat.
Proof.
  intros Hne ->%cut_spec. rewrite !string_length_app.
  destruct sep; [done|]. simpl. lia.
Qed.

(** The fuel [split] starts with is enough: more of it changes nothing. *)
Lemma split_go_fuel (sep : string) :
  sep ≠ "" →
  ∀ n m s, (String.length s ≤ n)%nat → (String.length s ≤ m)%nat →
           split_go n sep s = split_go m sep s.
Proof.
  intros Hne. induction n as [|n IH]; intros m s Hn Hm.
  - destruct m as [|m]; [done|]. simpl.
    destruct (cut sep s) as [[a b]|] eqn:C; [|done].
    apply (cut_shorter _ _ _ _ Hne) in C. lia.
  - simpl. destruct (cut sep s) as [[a b]|] eqn:C.
    + pose proof (cut_shorter _ _ _ _ Hne C) as Hlt.
      destruct m as [|m]; [lia|]. simpl. rewrite C.
      f_equal. apply IH; lia.
    + destruct m; simpl; by rewrite C.
Qed.

(** Where [sep in s] holds, the split has a second element, so the
    server's [split(...)[1]] never indexes out of range. *)
Lemma split_has_second (sep s : string) :
  contains sep s = true → (2 ≤ length (split sep s))%nat.
Proof.
  intros [[a b] C]%contains_cut. unfold split.
  destruct (String.length s) as [|n]; simpl; rewrite C; simpl; [lia|].
  destruct n; simpl; destruct (cut sep b) as [[? ?]|]; simpl; lia.
Qed.

(** [sep.join(s.split(sep)) == s] *)
Lemma split_go_join (sep : string) :
  sep ≠ "" →
  ∀ n s, (String.length s ≤ n)%nat →
         String.concat sep (split_go n sep s) = s.
Proof.
  intros Hne. induction n as [|n IH]; intros s Hn; simpl.
  - destruct (cut sep s) as [[a b]|] eqn:C; [|done].
    apply (cut_shorter _ _ _ _ Hne) in C. lia.
  - destruct (cut sep s) as [[a b]|] eqn:C; [|done].
    pose proof (cut_shorter _ _ _ _ Hne C) as Hlt.
    specialize (IH b ltac:(lia)).
    destruct (split_go n sep b) as [|x l] eqn:E.
    + destruct n; simpl in E; destruct (cut sep b) as [[? ?]|]; done.
    + cbn [String.concat]. cbn [String.concat] in IH. rewrite IH.
      symmetry. by apply cut_spec.
Qed.

Lemma split_join (sep s : string) :
  sep ≠ "" → String.concat sep (split sep s) = s.
Proof. intros Hne. by apply split_go_join. Qed.

End SplitFacts.

Example split_example : PyStr.split "," "a,b,,c" = ["a"; "b"; ""; "c"].
Proof. reflexivity. Qed.

Example extract_tagged :
  extract_code ("Here:" +:+ newline +:+ "```python" +:+ newline
                +:+ "result = 2 + 2" +:+ newline +:+ "```" +:+ newline
                +:+ "done") = "result = 2 + 2".
Proof. reflexivity. Qed.

Example extract_untagged :
  extract_code ("```" +:+ newline +:+ "result = 4" +:+ newline
                +:+ "``` and ```other```") = "result = 4".
Proof. reflexivity. Qed.

Example extract_tagged_wins :
  extract_code "```a``` then ```python b```" = "b".
Proof. reflexivity. Qed.

(** A tag that starts inside a run of backticks delimits the block before
    the fence is looked for. *)
Example extract_backtick_run :
  extract_code "```python a`````python b" = "a``".
Proof. reflexivity. Qed.

(* ===================================================================== *)
(** * C6: code extraction *)
(* ===================================================================== *)

(** C6, counterexample: a response without any fence that starts with a
    blank is not returned whole; the leading blank is trimmed. *)
Lemma extraction_as_stated_fails : ¬ extraction_as_stated.
Proof.
  intros Hclaim. specialize (Hclaim " result = 4"). by vm_compute in Hclaim.
Qed.

(** C6, amended: for every response, extraction returns, with leading and
    trailing whitespace stripped, the text after the first python tag up to
    the next fence (looked for no further than the next python tag) when a
    tag is present; otherwise the text between the first fence and the next
    one (or the end) when a fence is present; otherwise the whole
    response. *)
Theorem extract_code_policy (response : string) :
  extract_code response = PyStr.strip (extraction_result response).
Proof.
  unfold extract_code, extraction_result.
  destruct (PyStr.contains python_fence response) eqn:Etag.
  - apply contains_cut in Etag as [[pre rest] Hcut]. rewrite Hcut.
    by rewrite item_split_0, (item_split_1 _ _ _ _ Hcut).
  - apply contains_false_cut in Etag. rewrite Etag.
    destruct (PyStr.contains fence response) eqn:Efence.
    + apply contains_cut in Efence as [[pre rest] Hcut]. rewrite Hcut.
      rewrite item_split_0, (item_split_1 _ _ _ _ Hcut).
      by rewrite before_idem.
    + apply contains_false_cut in Efence. by rewrite Efence.
Qed.

(* ===================================================================== *)
(** * The file loop *)
(* ===================================================================== *)

Section FileLoop.

Context {L : Libraries}.

Lemma process_csv_file_raises (file_path : string) (bytes : list Byte.byte)
    (e : exn) :
  pd_read_csv file_path bytes = Raises e →
  process_csv_file file_path bytes
  = Raises (HTTPException 400 ("Error processing CSV: " +:+ str e)).
Proof. intros E. unfold process_csv_file. by rewrite E. Qed.

(** A file whose name ends in [.csv] and that pandas rejects stops the
    loop turn it is processed in. *)
Lemma process_file_malformed (temp_dir : string)
    (st : gmap string pyval * FileInfo) (f : UploadFile) :
  malformed_csv f → ∃ e, process_file temp_dir st f = Raises e.
Proof.
  intros [Hcsv Hbad]. unfold process_file.
  destruct (save_upload _ _) as [e|]; [by eexists|].
  destruct (Hbad (path_join temp_dir (filename f))) as [e He].
  unfold bind_file. rewrite Hcsv, (process_csv_file_raises _ _ _ He).
  by eexists.
Qed.

Lemma process_files_malformed (temp_dir : string) (fs : list UploadFile)
    (f : UploadFile) :
  f ∈ fs → malformed_csv f →
  ∀ st, ∃ e, process_files temp_dir st fs = Raises e.
Proof.
  intros Hin Hbad. induction Hin as [f fs|f g fs Hin IH]; intros st; simpl.
  - destruct (process_file_malformed temp_dir st f Hbad) as [e ->].
    by exists e.
  - destruct (process_file temp_dir st g) as [st'|e].
    + by apply IH.
    + by exists e.
Qed.

(** Whatever branch a loop turn takes, it ends by appending the file's
    name to the [files] list and to nothing else. *)
Lemma bind_file_files (file_path : string) (f : UploadFile)
    (ctx ctx' : gmap string pyval) (info info' : FileInfo) :
  bind_file file_path f ctx info = Returns (ctx', info') →
  files info' = files info.
Proof.
  unfold bind_file. repeat case_match; intros [= <- <-]; done.
Qed.

Lemma process_file_files (temp_dir : string)
    (st st' : gmap string pyval * FileInfo) (f : UploadFile) :
  process_file temp_dir st f = Returns st' →
  files st'.2 = files st.2 ++ [filename f].
Proof.
  unfold process_file. destruct (save_upload _ _); [done|].
  destruct (bind_file _ _ _ _) as [[ctx info]|] eqn:E; [|done].
  intros [= <-]. simpl. by rewrite (bind_file_files _ _ _ _ _ _ E).
Qed.

Lemma process_files_files (temp_dir : string) (fs : list UploadFile) :
  ∀ st st', process_files temp_dir st fs = Returns st' →
            files st'.2 = files st.2 ++ (filename <$> fs).
Proof.
  induction fs as [|f fs IH]; intros st st'; simpl.
  - intros [= <-]. by rewrite app_nil_r.
  - destruct (process_file temp_dir st f) as [st1|] eqn:E; [|done].
    intros Hrest. rewrite (IH _ _ Hrest), (process_file_files _ _ _ _ E).
    by rewrite <- app_assoc.
Qed.

(** A file that matches no known suffix and cannot be read as text leaves
    the context and the descriptor lists as they were. *)
Lemma process_file_skipped (temp_dir : string)
    (st : gmap string pyval * FileInfo) (f : UploadFile) (e : exn) :
  save_upload (path_join temp_dir (filename f)) (file f) = None →
  PyStr.endswith ".csv" (filename f) = false →
  PyStr.endswith ".pdf" (filename f) = false →
  is_image (filename f) = false →
  read_text (path_join temp_dir (filename f)) (file f) = Raises e →
  process_file temp_dir st f = Returns (st.1, add_file (filename f) st.2).
Proof.
  intros Hsave Hcsv Hpdf Himg Hread. unfold process_file, bind_file.
  by rewrite Hsave, Hcsv, Hpdf, Himg, Hread.
Qed.

End FileLoop.

(* ===================================================================== *)
(** * The handler, path by path *)
(* ===================================================================== *)

Ltac unfold_handler :=
  unfold analyze_data, try_except, try_finally, run_analysis,
    mbind, M_bind, bind, mret, M_ret, ret, lift, widen, mkdtemp, insert_one,
    rmtree.

Section Handler.

Context {L : Libraries}.

(** There are three kinds of run.  All five steps succeed: one record is
    appended and the envelope says "completed".  Some step raises an
    [Exception]: nothing is appended and the envelope is the error one.
    The generated code raises a [BaseException] that is not an
    [Exception]: it passes both [except Exception] clauses and leaves the
    handler, after the [finally] clause and without a record. *)
Lemma analyze_data_runs (env : Env) (questions : UploadFile)
    (uploads : list UploadFile) (w : World) :
  (∃ questions_text temp_dir st code value,
      utf8_decode (file questions) = Returns questions_text
      ∧ mkdtemp_result env = Returns temp_dir
      ∧ process_files temp_dir (∅, empty_file_info) uploads = Returns st
      ∧ generate_analysis_code questions_text st.2 = Returns code
      ∧ execute_analysis_code code st.1 = Returns value
      ∧ insert_one_result env = None
      ∧ analyze_data env questions uploads w
        = (Returns {| task_id := uuid4 env; result := value;
                      execution_time :=
                        PrimFloat.sub (loop_time_end env) (loop_time_start env);
                      status := "completed"; error := None |},
           {| analysis_requests :=
                analysis_requests w
                ++ [completed_record env questions_text (files st.2)];
              workspaces := ({[temp_dir]} ∪ workspaces w) ∖ {[temp_dir]} |}))
  ∨ (∃ e w',
        analyze_data env questions uploads w
        = (Returns (error_envelope env e), w')
        ∧ analysis_requests w' = analysis_requests w)
  ∨ (∃ questions_text temp_dir st code name,
        utf8_decode (file questions) = Returns questions_text
        ∧ mkdtemp_result env = Returns temp_dir
        ∧ process_files temp_dir (∅, empty_file_info) uploads = Returns st
        ∧ generate_analysis_code questions_text st.2 = Returns code
        ∧ py_exec code (execution_namespace st.1)
          = Raises (BaseException name)
        ∧ analyze_data env questions uploads w
          = (Raises (BaseException name),
             {| analysis_requests := analysis_requests w;
                workspaces := ({[temp_dir]} ∪ workspaces w) ∖ {[temp_dir]} |})).
Proof.
  unfold_handler.
  destruct (utf8_decode (file questions)) as [questions_text|e] eqn:Hq;
    [|right; left; by eexists _, _].
  destruct (mkdtemp_result env) as [temp_dir|e] eqn:Hd;
    [|right; left; by eexists _, _].
  destruct (process_files temp_dir _ uploads) as [st|e] eqn:Hfiles;
    [|right; left; by eexists _, _].
  destruct (generate_analysis_code questions_text st.2) as [code|e] eqn:Hgen;
    [|right; left; by eexists _, _].
  destruct (execute_analysis_code code st.1) as [value|[e|name]] eqn:Hrun;
    [|right; left; by eexists _, _|].
  - destruct (insert_one_result env) as [e|] eqn:Hins;
      [right; left; by eexists _, _|].
    left. by eexists questions_text, temp_dir, st, code, value.
  - right. right. exists questions_text, temp_dir, st, code, name.
    repeat split; try done.
    unfold execute_analysis_code in Hrun.
    destruct (py_exec code (execution_namespace st.1)) as [vars|[e|name']];
      [by destruct (vars !! "result")|done|by injection Hrun as ->].
Qed.

End Handler.

(* ===================================================================== *)
(** * C1: a malformed CSV file *)
(* ===================================================================== *)

Lemma empty_csv_is_malformed :
  @malformed_csv demo_libraries (upload "sales.csv" "").
Proof. split; [done|]. intros file_path. by eexists. Qed.

(** C1, counterexample: with an empty [sales.csv] the handler returns its
    envelope, which FastAPI sends with status 200, not a 4xx status. *)
Lemma malformed_csv_as_stated_fails : ¬ malformed_csv_as_stated.
Proof.
  intros Hclaim.
  destruct (Hclaim demo_libraries demo_env (upload "questions.txt" "result = 4")
              empty_csv_request demo_world (upload "sales.csv" ""))
    as [(status_code & Hstatus & Hclient) _].
  - apply list_elem_of_here.
  - apply empty_csv_is_malformed.
  - assert (@response_status demo_libraries
              (@analyze_data demo_libraries demo_env
                 (upload "questions.txt" "result = 4")
                 empty_csv_request demo_world).1 = Some 200) as E
      by (by vm_compute).
    rewrite E in Hstatus. injection Hstatus as <-.
    unfold client_error in Hclient. lia.
Qed.

Section MalformedCsv.

Context {L : Libraries}.

(** The loop stops at the first file that raises. *)
Lemma process_files_stops (temp_dir : string) (earlier later : list UploadFile)
    (f : UploadFile) (e : exn) :
  ∀ st st1,
    process_files temp_dir st earlier = Returns st1 →
    process_file temp_dir st1 f = Raises e →
    process_files temp_dir st (earlier ++ f :: later) = Raises e.
Proof.
  induction earlier as [|g earlier IH]; intros st st1; simpl.
  - intros [= <-] ->. done.
  - destruct (process_file temp_dir st g) as [st'|]; [|done].
    apply IH.
Qed.

Lemma process_file_csv_raises (temp_dir : string)
    (st : gmap string pyval * FileInfo) (f : UploadFile) (cause : exn) :
  save_upload (path_join temp_dir (filename f)) (file f) = None →
  PyStr.endswith ".csv" (filename f) = true →
  pd_read_csv (path_join temp_dir (filename f)) (file f) = Raises cause →
  process_file temp_dir st f
  = Raises (HTTPException 400 ("Error processing CSV: " +:+ str cause)).
Proof.
  intros Hsave Hcsv Hread. unfold process_file, bind_file.
  by rewrite Hsave, Hcsv, (process_csv_file_raises _ _ _ Hread).
Qed.

(** Whatever step of the file loop raises, the handler answers with the
    error envelope of that exception and writes no record. *)
Lemma analyze_data_loop_raises (env : Env) (questions : UploadFile)
    (uploads : list UploadFile) (w : World) (questions_text temp_dir : string)
    (e : exn) :
  utf8_decode (file questions) = Returns questions_text →
  mkdtemp_result env = Returns temp_dir →
  process_files temp_dir (∅, empty_file_info) uploads = Raises e →
  analyze_data env questions uploads w
  = (Returns (error_envelope env e),
     {| analysis_requests := analysis_requests w;
        workspaces := ({[temp_dir]} ∪ workspaces w) ∖ {[temp_dir]} |}).
Proof.
  intros Hq Hd Hfiles. unfold_handler. by rewrite Hq, Hd, Hfiles.
Qed.

End MalformedCsv.

(** C1, amended: a request that contains a malformed CSV file is aborted
    and reported to the caller inside the result envelope, which is sent
    with status 200: status "error", a null result and the text of the
    exception that stopped the request; no record is added to the request
    log.  When the malformed file is the first step of the request to
    fail, that text is the text of the 400 exception [process_csv_file]
    raised around the parser's error. *)
Theorem malformed_csv_error_envelope {L : Libraries} (env : Env)
    (questions : UploadFile) (uploads : list UploadFile) (w : World)
    (f : UploadFile) :
  f ∈ uploads → malformed_csv f →
  (∃ e,
      (analyze_data env questions uploads w).1 = Returns (error_envelope env e)
      ∧ response_status (analyze_data env questions uploads w).1 = Some 200
      ∧ analysis_requests (analyze_data env questions uploads w).2
        = analysis_requests w)
  ∧ (∀ questions_text temp_dir earlier later st cause,
        uploads = earlier ++ f :: later →
        utf8_decode (file questions) = Returns questions_text →
        mkdtemp_result env = Returns temp_dir →
        process_files temp_dir (∅, empty_file_info) earlier = Returns st →
        save_upload (path_join temp_dir (filename f)) (file f) = None →
        pd_read_csv (path_join temp_dir (filename f)) (file f) = Raises cause →
        (analyze_data env questions uploads w).1
        = Returns
            {| task_id := uuid4 env; result := PNone;
               execution_time :=
                 PrimFloat.sub (loop_time_end env) (loop_time_start env);
               status := "error";
               error :=
                 Some (http_exception_str 400
                         ("Error processing CSV: " +:+ str cause)) |}).
Proof.
  intros Hin Hbad. split.
  - destruct (analyze_data_runs env questions uploads w)
      as [(q & d & st & code & v & _ & _ & Hfiles & _)
         |[(e & w' & Hrun & Hdb)
          |(q & d & st & code & name & _ & _ & Hfiles & _)]].
    + destruct (process_files_malformed d uploads f Hin Hbad
                  (∅, empty_file_info)) as [e He].
      congruence.
    + exists e. rewrite Hrun. by simpl.
    + destruct (process_files_malformed d uploads f Hin Hbad
                  (∅, empty_file_info)) as [e He].
      congruence.
  - intros q d earlier later st cause -> Hq Hd Hearlier Hsave Hread.
    destruct Hbad as [Hcsv _].
    rewrite (analyze_data_loop_raises env questions _ w q d
               (HTTPException 400 ("Error processing CSV: " +:+ str cause))
               Hq Hd); [done|].
    apply (process_files_stops _ _ _ _ _ _ st Hearlier).
    by apply process_file_csv_raises.
Qed.

Lemma malformed_csv_error_envelope_witness :
  (∃ e,
      (@analyze_data demo_libraries demo_env
         (upload "questions.txt" "result = 4")
         [upload "notes.txt" "hello"; upload "sales.csv" ""] demo_world).1
      = Returns (@error_envelope demo_libraries demo_env e)
      ∧ @response_status demo_libraries
          (@analyze_data demo_libraries demo_env
             (upload "questions.txt" "result = 4")
             [upload "notes.txt" "hello"; upload "sales.csv" ""] demo_world).1
        = Some 200
      ∧ analysis_requests
          (@analyze_data demo_libraries demo_env
             (upload "questions.txt" "result = 4")
             [upload "notes.txt" "hello"; upload "sales.csv" ""] demo_world).2
        = analysis_requests demo_world)
  ∧ (@analyze_data demo_libraries demo_env
       (upload "questions.txt" "result = 4")
       [upload "notes.txt" "hello"; upload "sales.csv" ""] demo_world).1
    = Returns
        {| task_id := uuid4 demo_env; result := PNone;
           execution_time := 2.5%float; status := "error";
           error :=
             Some "400: Error processing CSV: No columns to parse from file" |}.
Proof.
  destruct (@malformed_csv_error_envelope demo_libraries demo_env
              (upload "questions.txt" "result = 4")
              [upload "notes.txt" "hello"; upload "sales.csv" ""] demo_world
              (upload "sales.csv" "")) as [Hany Hfirst].
  - apply list_elem_of_further, list_elem_of_here.
  - split; [reflexivity|]. intros file_path.
    exists (PyException "No columns to parse from file"). reflexivity.
  - split; [exact Hany|].
    apply (Hfirst "result = 4" "/tmp/tmpk3x9" [upload "notes.txt" "hello"] []
             (demo_files_state [upload "notes.txt" "hello"])
             (PyException "No columns to parse from file")); reflexivity.
Defined.

(** When the malformed file is where the loop stops, the error text is
    that of the 400 exception [process_csv_file] raised. *)
Example malformed_csv_error_text :
  (@analyze_data demo_libraries demo_env (upload "questions.txt" "result = 4")
     empty_csv_request demo_world).1
  = Returns {| task_id := uuid4 demo_env; result := PNone;
               execution_time := 2.5%float; status := "error";
               error := Some "400: Error processing CSV: No columns to parse from file" |}.
Proof. by vm_compute. Qed.

(* ===================================================================== *)
(** * C2: records written to the request log *)
(* ===================================================================== *)

(** C2, counterexample: a request whose generated code raises ends with
    status "error" and the log is as it was: zero records written. *)
Lemma one_record_as_stated_fails : ¬ one_record_as_stated.
Proof.
  intros Hclaim.
  destruct (Hclaim demo_libraries demo_env (upload "questions.txt" "1/0") []
              demo_world
              (@error_envelope demo_libraries demo_env
                 (HTTPException 500 "Code execution error: division by zero"))
              demo_world) as [doc Hdoc].
  - by vm_compute.
  - by right.
  - simpl in Hdoc. discriminate.
Qed.

(** C2, amended: for every analysis request whose outcome becomes known:
    when the status is "completed", exactly one record is written to the
    log, carrying the request's task id and the status "completed", in a
    run where the generated code has returned the result; when the status
    is "error", no record is written. *)
Theorem one_record_when_completed {L : Libraries} (env : Env)
    (questions : UploadFile) (uploads : list UploadFile) (w w' : World)
    (r : AnalysisResult) :
  analyze_data env questions uploads w = (Returns r, w') →
  (status r = "completed" →
   (∃ code context, execute_analysis_code code context = Returns (result r))
   ∧ ∃ doc, analysis_requests w' = analysis_requests w ++ [doc]
            ∧ req_task_id doc = task_id r
            ∧ req_status doc = "completed")
  ∧ (status r = "error" → analysis_requests w' = analysis_requests w).
Proof.
  intros Hrun.
  destruct (analyze_data_runs env questions uploads w)
    as [(q & d & st & code & v & _ & _ & _ & _ & Hexec & _ & Hrun')
       |[(e & w1 & Hrun' & Hdb)
        |(q & d & st & code & name & _ & _ & _ & _ & _ & Hrun')]];
    rewrite Hrun in Hrun'; [| |done].
  - injection Hrun' as -> ->. split; [|done]. intros _. split.
    + by exists code, st.1.
    + by eexists.
  - injection Hrun' as -> ->. split; [done|]. by intros _.
Qed.

Lemma one_record_when_completed_witness :
  (status {| task_id := uuid4 demo_env; result := PInt 4;
             execution_time := 2.5%float; status := "completed";
             error := None |} = "completed" →
   (∃ code context,
       @execute_analysis_code demo_libraries code context = Returns (PInt 4))
   ∧ ∃ doc,
       analysis_requests
         (@analyze_data demo_libraries demo_env
            (upload "questions.txt" "result = 4") [] demo_world).2
       = analysis_requests demo_world ++ [doc]
       ∧ req_task_id doc = uuid4 demo_env
       ∧ req_status doc = "completed")
  ∧ (status {| task_id := uuid4 demo_env; result := PInt 4;
               execution_time := 2.5%float; status := "completed";
               error := None |} = "error" →
     analysis_requests
       (@analyze_data demo_libraries demo_env
          (upload "questions.txt" "result = 4") [] demo_world).2
     = analysis_requests demo_world).
Proof.
  apply (@one_record_when_completed demo_libraries demo_env
           (upload "questions.txt" "result = 4") [] demo_world
           (@analyze_data demo_libraries demo_env
              (upload "questions.txt" "result = 4") [] demo_world).2
           {| task_id := uuid4 demo_env; result := PInt 4;
              execution_time := 2.5%float; status := "completed";
              error := None |}).
  reflexivity.
Defined.

(* ===================================================================== *)
(** * C3: an exception in the sandbox *)
(* ===================================================================== *)




(* ===================================================================== *)
(** * C9: the temporary workspace *)
(* ===================================================================== *)

Section Workspace.

Context {L : Libraries}.

(** The inner [try] body writes to the request log only. *)
Lemma run_analysis_workspaces (env : Env) (temp_dir questions_text : string)
    (uploads : list UploadFile) (w : World) :
  workspaces (run_analysis env temp_dir questions_text uploads w).2
  = workspaces w.
Proof.
  unfold run_analysis, mbind, M_bind, bind, mret, M_ret, ret, lift, insert_one.
  repeat case_match; simplify_eq/=; done.
Qed.

(** Whatever the body does and however it ends, the [finally] clause has
    removed the directory. *)
Lemma try_finally_rmtree {A} (body : M A) (temp_dir : string) (w : World) :
  workspaces (try_finally body (rmtree temp_dir) w).2
  = workspaces (body w).2 ∖ {[temp_dir]}.
Proof. unfold try_finally, rmtree. by destruct (body w). Qed.

Lemma analyze_data_workspaces (env : Env) (questions : UploadFile)
    (uploads : list UploadFile) (w : World) (questions_text temp_dir : string) :
  utf8_decode (file questions) = Returns questions_text →
  mkdtemp_result env = Returns temp_dir →
  workspaces (analyze_data env questions uploads w).2
  = workspaces w ∖ {[temp_dir]}.
Proof.
  intros Hq Hd.
  pose proof (try_finally_rmtree
                (run_analysis env temp_dir questions_text uploads) temp_dir
                {| analysis_requests := analysis_requests w;
                   workspaces := {[temp_dir]} ∪ workspaces w |}) as Hfin.
  rewrite run_analysis_workspaces in Hfin. simpl in Hfin.
  unfold analyze_data, try_except, mbind, M_bind, bind, lift, widen, mkdtemp.
  rewrite Hq, Hd.
  destruct (try_finally _ _ _) as [[r|[e|name]] w']; simpl in *; rewrite Hfin;
    apply set_eq; intros d; rewrite !elem_of_difference, elem_of_union;
    tauto.
Qed.

End Workspace.

(** C9: once the question is decoded and [mkdtemp] has created the
    workspace, the directory is gone when the handler returns, on every
    path through the request, and no other directory was touched. *)
Theorem workspace_removed {L : Libraries} (env : Env) (questions : UploadFile)
    (uploads : list UploadFile) (w : World) (questions_text temp_dir : string) :
  utf8_decode (file questions) = Returns questions_text →
  mkdtemp_result env = Returns temp_dir →
  (temp_dir ∉ workspaces (analyze_data env questions uploads w).2)
  ∧ (∀ other, other ≠ temp_dir →
       (other ∈ workspaces (analyze_data env questions uploads w).2
        ↔ other ∈ workspaces w)).
Proof.
  intros Hq Hd.
  rewrite (analyze_data_workspaces env questions uploads w _ _ Hq Hd).
  split.
  - rewrite elem_of_difference, elem_of_singleton. tauto.
  - intros other Hne. rewrite elem_of_difference, elem_of_singleton. tauto.
Qed.

Lemma workspace_removed_witness :
  ("/tmp/tmpk3x9"
     ∉ workspaces
         (@analyze_data demo_libraries demo_env (upload "questions.txt" "1/0")
            empty_csv_request busy_world).2)
  ∧ (∀ other, other ≠ "/tmp/tmpk3x9" →
       (other
          ∈ workspaces
              (@analyze_data demo_libraries demo_env
                 (upload "questions.txt" "1/0") empty_csv_request
                 busy_world).2
        ↔ other ∈ workspaces busy_world)).
Proof.
  apply (@workspace_removed demo_libraries demo_env
           (upload "questions.txt" "1/0") empty_csv_request busy_world
           "1/0" "/tmp/tmpk3x9"); reflexivity.
Defined.

(* ===================================================================== *)
(** * C10: skipped files are still listed *)
(* ===================================================================== *)

(** C10: a file that matches no known suffix and cannot be read as text
    adds its name to the [files] list and nothing else; the loop lists
    every upload's name in order; and the record a completed request
    writes carries that list as [files_processed]. *)
Theorem skipped_file_listed {L : Libraries} :
  (∀ temp_dir st f e,
      save_upload (path_join temp_dir (filename f)) (file f) = None →
      PyStr.endswith ".csv" (filename f) = false →
      PyStr.endswith ".pdf" (filename f) = false →
      is_image (filename f) = false →
      read_text (path_join temp_dir (filename f)) (file f) = Raises e →
      process_file temp_dir st f
      = Returns (st.1, {| files := files st.2 ++ [filename f];
                          dataframes := dataframes st.2;
                          text_content := text_content st.2;
                          images := images st.2 |}))
  ∧ (∀ temp_dir st st' uploads,
        process_files temp_dir st uploads = Returns st' →
        files st'.2 = files st.2 ++ (filename <$> uploads))
  ∧ (∀ env questions uploads w r w',
        analyze_data env questions uploads w = (Returns r, w') →
        status r = "completed" →
        ∃ doc, analysis_requests w' = analysis_requests w ++ [doc]
               ∧ req_files_processed doc = filename <$> uploads).
Proof.
  split; [|split].
  - intros temp_dir st f e. apply process_file_skipped.
  - intros temp_dir st st' uploads. apply process_files_files.
  - intros env questions uploads w r w' Hrun Hstatus.
    destruct (analyze_data_runs env questions uploads w)
      as [(q & d & st & code & v & _ & _ & Hfiles & _ & _ & _ & Hrun')
         |[(e & w1 & Hrun' & _)
          |(q & d & st & code & name & _ & _ & _ & _ & _ & Hrun')]].
    + rewrite Hrun in Hrun'. injection Hrun' as -> ->.
      eexists. split; [done|]. simpl.
      by rewrite (process_files_files _ _ _ _ Hfiles).
    + rewrite Hrun in Hrun'. injection Hrun' as -> ->. done.
    + rewrite Hrun in Hrun'. done.
Qed.

Lemma skipped_file_listed_witness :
  @process_file demo_libraries "/tmp/tmpk3x9" (∅, empty_file_info) binary_upload
  = Returns (∅, {| files := ["blob.bin"]; dataframes := [];
                   text_content := []; images := [] |})
  ∧ ∃ doc,
      analysis_requests
        (@analyze_data demo_libraries demo_env
           (upload "questions.txt" "result = 4")
           [upload "sales.csv" "name,salary"; binary_upload] demo_world).2
      = analysis_requests demo_world ++ [doc]
      ∧ req_files_processed doc = ["sales.csv"; "blob.bin"].
Proof.
  destruct (@skipped_file_listed demo_libraries) as (Hskip & _ & Hrequest).
  split.
  - apply (Hskip "/tmp/tmpk3x9" (∅, empty_file_info) binary_upload
             (PyException "'utf-8' codec can't decode byte 0xff in position 0: invalid start byte"));
      reflexivity.
  - destruct (@analyze_data demo_libraries demo_env
                (upload "questions.txt" "result = 4")
                [upload "sales.csv" "name,salary"; binary_upload] demo_world)
      as [o w'] eqn:Hrun.
    assert (o = Returns {| task_id := uuid4 demo_env; result := PInt 4;
                           execution_time := 2.5%float;
                           status := "completed"; error := None |}) as ->
      by (by vm_compute in Hrun; injection Hrun as <- _).
    apply (Hrequest _ _ _ _ _ _ Hrun). reflexivity.
Defined.

(* ===================================================================== *)
(** * Names bound by the file loop *)
(* ===================================================================== *)

Lemma startswith_self_app (p s : string) : PyStr.startswith p (p +:+ s) = true.
Proof.
  induction p as [|a p IH]; [done|].
  unfold String.app; simpl. by rewrite Ascii.eqb_refl.
Qed.

Lemma var_name_file_key (prefix name : string) :
  prefix ∈ file_prefixes → file_key (var_name prefix name).
Proof. intros Hp. exists prefix. split; [done|]. apply startswith_self_app. Qed.

(** No name of the sandbox's fixed namespace starts with a file prefix. *)
Lemma file_key_not_global (k : string) : file_key k → k ∉ dom safe_globals.
Proof.
  intros (prefix & Hprefix & Hstart) [v Hv]%elem_of_dom.
  apply elem_of_list_to_map_2 in Hv.
  unfold file_prefixes in Hprefix.
  repeat (apply elem_of_cons in Hprefix as [->|Hprefix]);
    [| | |by apply elem_of_nil in Hprefix];
    repeat (apply elem_of_cons in Hv as [[= -> _]|Hv]);
    try (by apply elem_of_nil in Hv); by vm_compute in Hstart.
Qed.

Section ContextKeys.

Context {L : Libraries}.

Lemma bind_file_keys (file_path : string) (f : UploadFile)
    (ctx ctx' : gmap string pyval) (info info' : FileInfo) :
  bind_file file_path f ctx info = Returns (ctx', info') →
  ∀ k, k ∈ dom ctx' → k ∈ dom ctx ∨ file_key k.
Proof.
  unfold bind_file.
  repeat case_match; intros [= <- <-] k; try tauto;
    rewrite dom_insert_L, elem_of_union, elem_of_singleton;
    (intros [->|?]; [right|by left]);
    apply var_name_file_key; unfold file_prefixes;
    repeat first [apply list_elem_of_here | apply list_elem_of_further].
Qed.

Lemma process_file_keys (temp_dir : string)
    (st st' : gmap string pyval * FileInfo) (f : UploadFile) :
  process_file temp_dir st f = Returns st' →
  ∀ k, k ∈ dom st'.1 → k ∈ dom st.1 ∨ file_key k.
Proof.
  unfold process_file. destruct (save_upload _ _); [done|].
  destruct (bind_file _ _ _ _) as [[ctx info]|] eqn:E; [|done].
  intros [= <-]. simpl. by apply (bind_file_keys _ _ _ _ _ _ E).
Qed.

Lemma process_files_keys (temp_dir : string) (fs : list UploadFile) :
  ∀ st st', process_files temp_dir st fs = Returns st' →
            (∀ k, k ∈ dom st.1 → file_key k) →
            ∀ k, k ∈ dom st'.1 → file_key k.
Proof.
  induction fs as [|f fs IH]; intros st st'; simpl.
  - by intros [= <-].
  - destruct (process_file temp_dir st f) as [st1|] eqn:E; [|done].
    intros Hrest Hst. apply (IH _ _ Hrest).
    intros k Hk. destruct (process_file_keys _ _ _ _ E k Hk); auto.
Qed.

Lemma process_files_context_keys (temp_dir : string) (fs : list UploadFile)
    (st : gmap string pyval * FileInfo) :
  process_files temp_dir (∅, empty_file_info) fs = Returns st →
  ∀ k, k ∈ dom st.1 → file_key k.
Proof.
  intros Hfiles. apply (process_files_keys _ _ _ _ Hfiles).
  intros k. simpl. by rewrite dom_empty_L, elem_of_empty.
Qed.

End ContextKeys.

(* ===================================================================== *)
(** * C4: the builtins the sandbox exposes *)
(* ===================================================================== *)

Lemma builtins_dict_names (name : string) :
  is_Some (builtins_dict !! name) ↔ name ∈ allowed_builtins.
Proof.
  rewrite <- elem_of_dom. unfold builtins_dict.
  by rewrite dom_list_to_map_L, elem_of_list_to_set.
Qed.

(** When the context does not rebind the name, [update] leaves the literal
    builtins mapping in place. *)
Lemma execution_namespace_builtins (context : gmap string pyval) :
  "__builtins__" ∉ dom context →
  execution_namespace context !! "__builtins__" = Some (PDict builtins_dict).
Proof.
  intros Hfree%not_elem_of_dom. unfold execution_namespace.
  by rewrite lookup_union_r.
Qed.

(** C4: for the context the file loop builds from any uploads, the
    namespace the code is executed in maps [__builtins__] to the literal
    mapping, whose names are exactly the seventeen allow-listed ones; in
    particular [open], [__import__], [exec], [eval], [compile] and [input]
    are not among them. *)
Theorem sandbox_builtins_allow_list {L : Libraries} (temp_dir : string)
    (uploads : list UploadFile) (st : gmap string pyval * FileInfo) :
  process_files temp_dir (∅, empty_file_info) uploads = Returns st →
  execution_namespace st.1 !! "__builtins__" = Some (PDict builtins_dict)
  ∧ (∀ name, is_Some (builtins_dict !! name) ↔ name ∈ allowed_builtins)
  ∧ length allowed_builtins = 17%nat
  ∧ Forall (λ name, builtins_dict !! name = None) unsafe_builtins.
Proof.
  intros Hfiles. split; [|split; [|split]].
  - apply execution_namespace_builtins. intros Hin.
    apply (file_key_not_global "__builtins__").
    + by apply (process_files_context_keys _ _ _ Hfiles).
    + apply elem_of_dom. by eexists.
  - apply builtins_dict_names.
  - done.
  - unfold unsafe_builtins. by repeat constructor.
Qed.

Lemma sandbox_builtins_allow_list_witness :
  execution_namespace
    (demo_files_state [upload "sales.csv" "name,salary"; binary_upload]).1
    !! "__builtins__" = Some (PDict builtins_dict)
  ∧ (∀ name, is_Some (builtins_dict !! name) ↔ name ∈ allowed_builtins)
  ∧ length allowed_builtins = 17%nat
  ∧ Forall (λ name, builtins_dict !! name = None) unsafe_builtins.
Proof.
  apply (@sandbox_builtins_allow_list demo_libraries "/tmp/tmpk3x9"
           [upload "sales.csv" "name,salary"; binary_upload]).
  reflexivity.
Defined.

(* ===================================================================== *)
(** * C5: the designated result variable *)
(* ===================================================================== *)

(** C5: when the code runs to its end, the sandbox returns the value the
    local scope binds to [result], and the fixed message when the scope
    has no such name. *)
Theorem sandbox_reads_result {L : Libraries} (code : string)
    (context local_vars : gmap string pyval) :
  py_exec code (execution_namespace context) = Returns local_vars →
  (∀ v, local_vars !! "result" = Some v →
        execute_analysis_code code context = Returns v)
  ∧ (local_vars !! "result" = None →
     execute_analysis_code code context
     = Returns (PStr "Code executed successfully but no result variable found")).
Proof.
  intros Hexec. unfold execute_analysis_code. rewrite Hexec.
  split; [intros v Hv|intros Hv]; by rewrite Hv.
Qed.

Lemma sandbox_reads_result_witness :
  @execute_analysis_code demo_libraries "result = 4" ∅ = Returns (PInt 4)
  ∧ @execute_analysis_code demo_libraries "x = 1" ∅
    = Returns (PStr "Code executed successfully but no result variable found").
Proof.
  destruct (@sandbox_reads_result demo_libraries "result = 4" ∅
              {["result" := PInt 4]}) as [Hpresent _]; [reflexivity|].
  destruct (@sandbox_reads_result demo_libraries "x = 1" ∅
              {["x" := PInt 1]}) as [_ Habsent]; [reflexivity|].
  split.
  - apply (Hpresent (PInt 4)). reflexivity.
  - apply Habsent. reflexivity.
Defined.

Example sandbox_result_present :
  @execute_analysis_code demo_libraries "result = 4" ∅ = Returns (PInt 4).
Proof. reflexivity. Qed.

(* ===================================================================== *)
(** * C7: text of a PDF *)
(* ===================================================================== *)

Lemma string_app_assoc (a b c : string) : (a +:+ b) +:+ c = a +:+ (b +:+ c).
Proof.
  induction a as [|x a IH]; [done|].
  unfold String.app in *; simpl. by rewrite IH.
Qed.

Lemma string_app_empty_r (a : string) : a +:+ "" = a.
Proof.
  induction a as [|x a IH]; [done|].
  unfold String.app in *; simpl. by rewrite IH.
Qed.

Section Pdf.

Context {L : Libraries}.

Lemma extract_pages_returns (texts : list string) :
  ∀ text, extract_pages (Returns <$> texts) text
          = Returns (text +:+ pages_text texts).
Proof.
  induction texts as [|t texts IH]; intros text; simpl.
  - by rewrite string_app_empty_r.
  - rewrite IH. by rewrite !string_app_assoc.
Qed.

Lemma extract_pages_raises (pages : list (outcome string)) (e : exn) :
  Raises e ∈ pages → ∀ text, ∃ e', extract_pages pages text = Raises e'.
Proof.
  induction pages as [|p pages IH]; intros Hin text.
  - by apply elem_of_nil in Hin.
  - apply elem_of_cons in Hin as [<-|Hin]; simpl.
    + by exists e.
    + destruct p as [t|e']; [by apply IH|by exists e'].
Qed.

End Pdf.

(** C7, counterexample: a PDF with the single page "a" yields "a" followed
    by a newline, not "a". *)
Lemma pdf_text_as_stated_fails : ¬ pdf_text_as_stated.
Proof.
  intros Hclaim.
  specialize (Hclaim demo_libraries "/tmp/tmpk3x9/report.pdf"
                (list_byte_of_string "a") ["a"] eq_refl).
  by vm_compute in Hclaim.
Qed.

(** C7, amended: ingestion returns every page's extracted text followed by
    a newline, in page order; when the file cannot be opened or any page
    fails to extract, it returns the empty string and raises nothing. *)
Theorem process_pdf_file_text {L : Libraries} (file_path : string)
    (bytes : list Byte.byte) :
  (∀ texts, pdf_reader file_path bytes = Returns (Returns <$> texts) →
            process_pdf_file file_path bytes = pages_text texts)
  ∧ (∀ e, pdf_reader file_path bytes = Raises e →
          process_pdf_file file_path bytes = "")
  ∧ (∀ pages e, pdf_reader file_path bytes = Returns pages →
                Raises e ∈ pages →
                process_pdf_file file_path bytes = "").
Proof.
  unfold process_pdf_file. split; [|split].
  - intros texts ->. by rewrite extract_pages_returns.
  - by intros e ->.
  - intros pages e -> Hin.
    by destruct (extract_pages_raises pages e Hin "") as [e' ->].
Qed.

Lemma process_pdf_file_text_witness :
  @process_pdf_file demo_libraries "/tmp/tmpk3x9/report.pdf"
    (list_byte_of_string "ab")
  = "a" +:+ newline +:+ "b" +:+ newline
  ∧ @process_pdf_file demo_libraries "/tmp/tmpk3x9/report.pdf" [] = ""
  ∧ @process_pdf_file demo_libraries "/tmp/tmpk3x9/report.pdf"
      [Byte.x61; Byte.xff] = "".
Proof.
  destruct (@process_pdf_file_text demo_libraries "/tmp/tmpk3x9/report.pdf"
              (list_byte_of_string "ab")) as (Hpages & _ & _).
  destruct (@process_pdf_file_text demo_libraries "/tmp/tmpk3x9/report.pdf" [])
    as (_ & Hopen & _).
  destruct (@process_pdf_file_text demo_libraries "/tmp/tmpk3x9/report.pdf"
              [Byte.x61; Byte.xff]) as (_ & _ & Hpage).
  split; [|split].
  - apply (Hpages ["a"; "b"]). reflexivity.
  - apply (Hopen (PyException "Cannot read an empty file")). reflexivity.
  - apply (Hpage [Returns "a"; Raises (PyException "unsupported page encoding")]
             (PyException "unsupported page encoding")).
    + reflexivity.
    + apply list_elem_of_further, list_elem_of_here.
Defined.

(* ===================================================================== *)
(** * C8: variable names *)
(* ===================================================================== *)

Example var_name_csv : var_name "df_" "q3-sales.v2.csv" = "df_q3_sales_v2_csv".
Proof. reflexivity. Qed.

Example var_name_keeps_blank : var_name "df_" "my data.csv" = "df_my data_csv".
Proof. reflexivity. Qed.

(** C8, counterexample: the blank of [my data.csv] is kept, so the derived
    name holds a character that is neither alphanumeric nor the
    replacement. *)
Lemma var_name_as_stated_fails : ¬ var_name_as_stated.
Proof.
  intros Hclaim.
  destruct (Hclaim "df_" "my data.csv") as [Hchars _].
  - apply list_elem_of_here.
  - by vm_compute in Hchars.
Qed.

Lemma replace_twice_get (name : string) :
  ∀ i, String.get i (PyStr.replace "-" "_" (PyStr.replace "." "_" name))
       = replaced_char <$> String.get i name.
Proof.
  induction name as [|c name IH]; intros i; [done|].
  destruct i as [|i]; simpl; [|apply IH].
  f_equal. unfold replaced_char.
  destruct (Ascii.eqb_spec c "."); [by subst|].
  by destruct (Ascii.eqb_spec c "-").
Qed.

Lemma replace_length (old new : ascii) (s : string) :
  String.length (PyStr.replace old new s) = String.length s.
Proof. induction s as [|c s IH]; simpl; by rewrite ?IH. Qed.

(** C8, amended: the variable name is a function of the filename: one of
    the prefixes [df_], [text_], [img_path_] followed by the filename with
    each [.] and each [-] replaced by [_] and every other character kept;
    it is never a name of the sandbox's fixed namespace, and so no key of
    the context the file loop builds is one. *)
Theorem var_name_avoids_reserved {L : Libraries} (prefix name : string) :
  prefix ∈ file_prefixes →
  (∃ body,
      var_name prefix name = prefix +:+ body
      ∧ String.length body = String.length name
      ∧ ∀ i, String.get i body = replaced_char <$> String.get i name)
  ∧ (var_name prefix name ∉ dom safe_globals)
  ∧ (∀ temp_dir uploads st,
        process_files temp_dir (∅, empty_file_info) uploads = Returns st →
        ∀ k, k ∈ dom st.1 → k ∉ dom safe_globals).
Proof.
  intros Hprefix. split; [|split].
  - eexists. split; [reflexivity|]. split.
    + by rewrite !replace_length.
    + apply replace_twice_get.
  - by apply file_key_not_global, var_name_file_key.
  - intros temp_dir uploads st Hfiles k Hk.
    by apply file_key_not_global, (process_files_context_keys _ _ _ Hfiles).
Qed.

Lemma var_name_avoids_reserved_witness :
  (∃ body,
      var_name "text_" "notes-2024.final.pdf" = "text_" +:+ body
      ∧ String.length body = String.length "notes-2024.final.pdf"
      ∧ ∀ i, String.get i body
             = replaced_char <$> String.get i "notes-2024.final.pdf")
  ∧ (var_name "text_" "notes-2024.final.pdf" ∉ dom safe_globals)
  ∧ (∀ temp_dir uploads st,
        @process_files demo_libraries temp_dir (∅, empty_file_info) uploads
        = Returns st →
        ∀ k, k ∈ dom st.1 → k ∉ dom safe_globals).
Proof.
  apply (@var_name_avoids_reserved demo_libraries "text_"
           "notes-2024.final.pdf").
  apply list_elem_of_further, list_elem_of_here.
Defined.

(* ===================================================================== *)
(** * More on the file loop *)
(* ===================================================================== *)

Section FileLoopMore.

Context {L : Libraries}.

(** X1: processing the uploads [a ++ b] is processing [a] and then [b]
    from the state [a] left; when a file of [a] raises, the loop stops
    with that exception and no file of [b] is looked at. *)
Theorem process_files_app (temp_dir : string) (a b : list UploadFile) :
  ∀ st, process_files temp_dir st (a ++ b)
        = match process_files temp_dir st a with
          | Returns st' => process_files temp_dir st' b
          | Raises e => Raises e
          end.
Proof.
  induction a as [|f a IH]; intros st; simpl; [done|].
  destruct (process_file temp_dir st f) as [st1|e]; [apply IH|done].
Qed.

Lemma bind_file_names (file_path : string) (f : UploadFile)
    (ctx ctx' : gmap string pyval) (info info' : FileInfo) :
  bind_file file_path f ctx info = Returns (ctx', info') →
  (∀ k, k ∈ dom ctx ↔ k ∈ descriptor_names info) →
  ∀ k, k ∈ dom ctx' ↔ k ∈ descriptor_names info'.
Proof.
  unfold bind_file, descriptor_names.
  repeat case_match; intros [= <- <-] Hinv k; specialize (Hinv k);
    try done; revert Hinv; simpl;
    rewrite ?dom_insert_L, ?fmap_app, ?elem_of_union, ?elem_of_app,
      ?elem_of_singleton; simpl;
    rewrite ?elem_of_app, ?list_elem_of_singleton; tauto.
Qed.

Lemma process_file_names (temp_dir : string)
    (st st' : gmap string pyval * FileInfo) (f : UploadFile) :
  process_file temp_dir st f = Returns st' →
  (∀ k, k ∈ dom st.1 ↔ k ∈ descriptor_names st.2) →
  ∀ k, k ∈ dom st'.1 ↔ k ∈ descriptor_names st'.2.
Proof.
  unfold process_file. destruct (save_upload _ _); [done|].
  destruct (bind_file _ _ _ _) as [[ctx info]|] eqn:E; [|done].
  intros [= <-] Hinv. simpl. by apply (bind_file_names _ _ _ _ _ _ E).
Qed.

Lemma process_files_names (temp_dir : string) (fs : list UploadFile) :
  ∀ st st', process_files temp_dir st fs = Returns st' →
            (∀ k, k ∈ dom st.1 ↔ k ∈ descriptor_names st.2) →
            ∀ k, k ∈ dom st'.1 ↔ k ∈ descriptor_names st'.2.
Proof.
  induction fs as [|f fs IH]; intros st st'; simpl.
  - by intros [= <-].
  - destruct (process_file temp_dir st f) as [st1|] eqn:E; [|done].
    intros Hrest Hinv. apply (IH _ _ Hrest).
    by apply (process_file_names _ _ _ _ E).
Qed.

(** X2: the names the file summary announces to the model are exactly the
    names bound in the context the code will run in. *)
Theorem context_matches_summary (temp_dir : string)
    (uploads : list UploadFile) (st : gmap string pyval * FileInfo) :
  process_files temp_dir (∅, empty_file_info) uploads = Returns st →
  ∀ k, is_Some (st.1 !! k) ↔ k ∈ descriptor_names st.2.
Proof.
  intros Hfiles k. rewrite <- elem_of_dom.
  apply (process_files_names _ _ _ _ Hfiles).
  intros k'. simpl. rewrite dom_empty_L, elem_of_empty.
  unfold descriptor_names. simpl. by rewrite elem_of_nil.
Qed.

Lemma bind_file_counts (file_path : string) (f : UploadFile)
    (ctx ctx' : gmap string pyval) (info info' : FileInfo) :
  bind_file file_path f ctx info = Returns (ctx', info') →
  (size ctx' ≤ size ctx + (length (descriptor_names info')
                           - length (descriptor_names info)))%nat
  ∧ (length (descriptor_names info) ≤ length (descriptor_names info')
     ≤ length (descriptor_names info) + 1)%nat.
Proof.
  unfold bind_file, descriptor_names.
  repeat case_match; intros [= <- <-]; simpl;
    rewrite ?length_app, ?length_fmap, ?length_app; simpl;
    try (split; lia);
    (split; [|lia]);
    rewrite map_size_insert; case_match; simpl; lia.
Qed.

Lemma process_files_counts (temp_dir : string) (fs : list UploadFile) :
  ∀ st st', process_files temp_dir st fs = Returns st' →
            (size st'.1 + length (descriptor_names st.2)
             ≤ size st.1 + length (descriptor_names st'.2))%nat
            ∧ (length (descriptor_names st'.2)
               ≤ length (descriptor_names st.2) + length fs)%nat.
Proof.
  induction fs as [|f fs IH]; intros st st'; simpl.
  - intros [= <-]. lia.
  - destruct (process_file temp_dir st f) as [st1|] eqn:E; [|done].
    intros Hrest. destruct (IH _ _ Hrest) as [IH1 IH2].
    unfold process_file in E. destruct (save_upload _ _); [done|].
    destruct (bind_file _ _ _ _) as [[ctx info]|] eqn:B; [|done].
    injection E as <-. simpl in *.
    destruct (bind_file_counts _ _ _ _ _ _ B) as [B1 B2].
    change (descriptor_names (add_file (filename f) info))
      with (descriptor_names info) in *.
    lia.
Qed.

(** X3: the context never holds more bindings than the summary has
    descriptors, the summary never has more descriptors than there are
    uploads, and the [files] list has one name per upload. *)
Theorem bindings_descriptors_uploads (temp_dir : string)
    (uploads : list UploadFile) (st : gmap string pyval * FileInfo) :
  process_files temp_dir (∅, empty_file_info) uploads = Returns st →
  (size st.1 ≤ length (descriptor_names st.2))%nat
  ∧ (length (descriptor_names st.2) ≤ length uploads)%nat
  ∧ length (files st.2) = length uploads.
Proof.
  intros Hfiles.
  destruct (process_files_counts _ _ _ _ Hfiles) as [H1 H2].
  rewrite (process_files_files _ _ _ _ Hfiles).
  simpl in H1, H2. rewrite map_size_empty in H1.
  change (length (descriptor_names empty_file_info)) with 0%nat in H1, H2.
  simpl. rewrite length_fmap.
  repeat split; lia.
Qed.

End FileLoopMore.

Lemma context_matches_summary_witness :
  is_Some ((demo_files_state
              [upload "sales.csv" "name,salary"; binary_upload;
               upload "notes.pdf" "ab"]).1 !! "text_notes_pdf")
  ↔ "text_notes_pdf"
      ∈ descriptor_names
          (demo_files_state
             [upload "sales.csv" "name,salary"; binary_upload;
              upload "notes.pdf" "ab"]).2.
Proof.
  apply (@context_matches_summary demo_libraries "/tmp/tmpk3x9"
           [upload "sales.csv" "name,salary"; binary_upload;
            upload "notes.pdf" "ab"]).
  reflexivity.
Defined.

Lemma bindings_descriptors_uploads_witness :
  (size (demo_files_state
           [upload "q1.sales.csv" "a,b"; upload "q1-sales.csv" "c,d";
            binary_upload]).1
   ≤ length (descriptor_names
               (demo_files_state
                  [upload "q1.sales.csv" "a,b"; upload "q1-sales.csv" "c,d";
                   binary_upload]).2))%nat
  ∧ (length (descriptor_names
               (demo_files_state
                  [upload "q1.sales.csv" "a,b"; upload "q1-sales.csv" "c,d";
                   binary_upload]).2)
     ≤ length [upload "q1.sales.csv" "a,b"; upload "q1-sales.csv" "c,d";
               binary_upload])%nat
  ∧ length (files (demo_files_state
                     [upload "q1.sales.csv" "a,b"; upload "q1-sales.csv" "c,d";
                      binary_upload]).2)
    = length [upload "q1.sales.csv" "a,b"; upload "q1-sales.csv" "c,d";
              binary_upload].
Proof.
  apply (@bindings_descriptors_uploads demo_libraries "/tmp/tmpk3x9"
           [upload "q1.sales.csv" "a,b"; upload "q1-sales.csv" "c,d";
            binary_upload]).
  reflexivity.
Defined.

(* ===================================================================== *)
(** * Variable names that coincide *)
(* ===================================================================== *)

Lemma string_get_ext (a b : string) :
  (∀ i, String.get i a = String.get i b) → a = b.
Proof.
  revert b; induction a as [|x a IH]; intros [|y b] Hget.
  - done.
  - by specialize (Hget 0%nat).
  - by specialize (Hget 0%nat).
  - pose proof (Hget 0%nat) as H0. simpl in H0. injection H0 as ->.
    f_equal. apply IH. intros i. apply (Hget (S i)).
Qed.

(** X4: two filenames get the same variable name exactly when they differ
    only in which of [.], [-] and [_] stands at a position. *)
Theorem var_name_collides (prefix name1 name2 : string) :
  var_name prefix name1 = var_name prefix name2
  ↔ ∀ i, replaced_char <$> String.get i name1
         = replaced_char <$> String.get i name2.
Proof.
  unfold var_name. split.
  - intros Heq%(inj (String.app prefix)) i.
    by rewrite <- !replace_twice_get, Heq.
  - intros Hget. f_equal. apply string_get_ext. intros i.
    by rewrite !replace_twice_get.
Qed.

Example var_name_collision :
  var_name "df_" "q1.sales.csv" = var_name "df_" "q1-sales_csv".
Proof. reflexivity. Qed.

(** X5: when two CSV uploads get the same variable name, the frame of the
    second replaces the frame of the first in the context, which gains a
    single name, while the summary keeps a descriptor for each under that
    one name. *)
Theorem colliding_csv_overwrites {L : Libraries} (temp_dir : string)
    (st : gmap string pyval * FileInfo) (f1 f2 : UploadFile)
    (df1 df2 : DataFrame) :
  PyStr.endswith ".csv" (filename f1) = true →
  PyStr.endswith ".csv" (filename f2) = true →
  save_upload (path_join temp_dir (filename f1)) (file f1) = None →
  save_upload (path_join temp_dir (filename f2)) (file f2) = None →
  pd_read_csv (path_join temp_dir (filename f1)) (file f1) = Returns df1 →
  pd_read_csv (path_join temp_dir (filename f2)) (file f2) = Returns df2 →
  var_name "df_" (filename f1) = var_name "df_" (filename f2) →
  ∃ st',
    process_files temp_dir st [f1; f2] = Returns st'
    ∧ st'.1 !! var_name "df_" (filename f2) = Some (PFrame df2)
    ∧ dom st'.1 = {[var_name "df_" (filename f2)]} ∪ dom st.1
    ∧ dataframes st'.2
      = dataframes st.2
        ++ [{| df_name := var_name "df_" (filename f2);
               df_shape := shape df1; df_columns := columns df1;
               df_filename := filename f1 |};
            {| df_name := var_name "df_" (filename f2);
               df_shape := shape df2; df_columns := columns df2;
               df_filename := filename f2 |}].
Proof.
  intros Hcsv1 Hcsv2 Hsave1 Hsave2 Hread1 Hread2 Hname.
  eexists. simpl. unfold process_file, bind_file, process_csv_file.
  rewrite Hsave1, Hcsv1, Hread1. simpl.
  rewrite Hsave2, Hcsv2, Hread2. simpl.
  split; [reflexivity|]. simpl. rewrite Hname. split; [|split].
  - apply lookup_insert_eq.
  - rewrite !dom_insert_L. apply set_eq. intros k.
    rewrite !elem_of_union, elem_of_singleton. tauto.
  - by rewrite <- app_assoc.
Qed.

Lemma colliding_csv_overwrites_witness :
  ∃ st',
    @process_files demo_libraries "/tmp/tmpk3x9" (∅, empty_file_info)
      [upload "q1.sales.csv" "a,b"; upload "q1-sales.csv" "c,d"] = Returns st'
    ∧ st'.1 !! var_name "df_" "q1-sales.csv" = Some (PFrame demo_frame)
    ∧ dom st'.1 = {[var_name "df_" "q1-sales.csv"]} ∪ dom (∅ : gmap string pyval)
    ∧ dataframes st'.2
      = []
        ++ [{| df_name := var_name "df_" "q1-sales.csv";
               df_shape := shape demo_frame; df_columns := columns demo_frame;
               df_filename := "q1.sales.csv" |};
            {| df_name := var_name "df_" "q1-sales.csv";
               df_shape := shape demo_frame; df_columns := columns demo_frame;
               df_filename := "q1-sales.csv" |}].
Proof.
  apply (@colliding_csv_overwrites demo_libraries "/tmp/tmpk3x9"
           (∅, empty_file_info) (upload "q1.sales.csv" "a,b")
           (upload "q1-sales.csv" "c,d") demo_frame demo_frame); reflexivity.
Defined.

(* ===================================================================== *)
(** * How a file is classified *)
(* ===================================================================== *)

Lemma startswith_head (a : ascii) (p s : string) :
  PyStr.startswith (String a p) s = true → ∃ s', s = String a s'.
Proof.
  destruct s as [|b s]; simpl; [done|].
  destruct (Ascii.eqb_spec a b) as [->|]; [by eexists|done].
Qed.

Lemma lower_rev_app (s acc : string) :
  PyStr.lower (String.rev_app s acc)
  = String.rev_app (PyStr.lower s) (PyStr.lower acc).
Proof. revert acc; induction s as [|c s IH]; intros acc; [done|apply IH]. Qed.

Lemma lower_rev (s : string) :
  PyStr.lower (String.rev s) = String.rev (PyStr.lower s).
Proof. apply lower_rev_app. Qed.

(** A name whose lower-case form ends in [.csv] ends in neither [.pdf] nor
    an image suffix. *)
Lemma lowered_csv_not_pdf_nor_image (name : string) :
  PyStr.endswith ".csv" (PyStr.lower name) = true →
  PyStr.endswith ".pdf" name = false ∧ is_image name = false.
Proof.
  unfold is_image, PyStr.endswith. rewrite <- lower_rev.
  intros [r Hr]%startswith_head. rewrite Hr. split.
  - destruct (PyStr.startswith _ (String.rev name)) eqn:E; [|done].
    apply startswith_head in E as [x Hx]. rewrite Hx in Hr. by simpl in Hr.
  - done.
Qed.

(** X6: only the image suffixes are matched without regard to case.  An
    upload whose name ends in [.csv] in some other casing ([DATA.CSV]) is
    not parsed by pandas: it is read as text and bound under the [text_]
    prefix, or skipped when it cannot be read as text. *)
Theorem other_case_csv_is_text {L : Libraries} (file_path : string)
    (f : UploadFile) (ctx : gmap string pyval) (info : FileInfo) :
  PyStr.endswith ".csv" (PyStr.lower (filename f)) = true →
  PyStr.endswith ".csv" (filename f) = false →
  bind_file file_path f ctx info
  = match read_text file_path (file f) with
    | Returns content =>
        Returns (<[var_name "text_" (filename f) := PStr content]> ctx,
                 add_text {| text_name := var_name "text_" (filename f);
                             text_filename := filename f;
                             text_length := String.length content |} info)
    | Raises _ => Returns (ctx, info)
    end.
Proof.
  intros Hlower Hcsv.
  destruct (lowered_csv_not_pdf_nor_image _ Hlower) as [Hpdf Himg].
  unfold bind_file. by rewrite Hcsv, Hpdf, Himg.
Qed.

Lemma other_case_csv_is_text_witness :
  @bind_file demo_libraries "/tmp/tmpk3x9/DATA.CSV" (upload "DATA.CSV" "a,b")
    ∅ empty_file_info
  = match @read_text demo_libraries "/tmp/tmpk3x9/DATA.CSV"
            (file (upload "DATA.CSV" "a,b")) with
    | Returns content =>
        Returns (<[var_name "text_" "DATA.CSV" := PStr content]> ∅,
                 add_text {| text_name := var_name "text_" "DATA.CSV";
                             text_filename := "DATA.CSV";
                             text_length := String.length content |}
                   empty_file_info)
    | Raises _ => Returns (∅, empty_file_info)
    end.
Proof.
  apply (@other_case_csv_is_text demo_libraries "/tmp/tmpk3x9/DATA.CSV"
           (upload "DATA.CSV" "a,b") ∅ empty_file_info); reflexivity.
Defined.

(* ===================================================================== *)
(** * Files that cannot be read *)
(* ===================================================================== *)

(** X7: a PDF that PyPDF2 cannot open does not stop the request: the file
    is bound to the empty string and described with length 0. *)
Theorem unreadable_pdf_binds_empty_text {L : Libraries} (file_path : string)
    (f : UploadFile) (ctx : gmap string pyval) (info : FileInfo) (e : exn) :
  PyStr.endswith ".csv" (filename f) = false →
  PyStr.endswith ".pdf" (filename f) = true →
  pdf_reader file_path (file f) = Raises e →
  bind_file file_path f ctx info
  = Returns (<[var_name "text_" (filename f) := PStr ""]> ctx,
             add_text {| text_name := var_name "text_" (filename f);
                         text_filename := filename f;
                         text_length := 0 |} info).
Proof.
  intros Hcsv Hpdf Hopen. unfold bind_file, process_pdf_file.
  by rewrite Hcsv, Hpdf, Hopen.
Qed.

Lemma unreadable_pdf_binds_empty_text_witness :
  @bind_file demo_libraries "/tmp/tmpk3x9/scan.pdf" (upload "scan.pdf" "")
    ∅ empty_file_info
  = Returns (<[var_name "text_" "scan.pdf" := PStr ""]> ∅,
             add_text {| text_name := var_name "text_" "scan.pdf";
                         text_filename := "scan.pdf";
                         text_length := 0 |} empty_file_info).
Proof.
  apply (@unreadable_pdf_binds_empty_text demo_libraries
           "/tmp/tmpk3x9/scan.pdf" (upload "scan.pdf" "") ∅ empty_file_info
           (PyException "Cannot read an empty file")); reflexivity.
Defined.

(** X8: an image upload is bound to the path of its saved copy whatever
    PIL makes of it: when PIL cannot open it the binding is the same and
    the descriptor carries an empty info mapping. *)
Theorem image_binds_path {L : Libraries} (file_path : string)
    (f : UploadFile) (ctx : gmap string pyval) (info : FileInfo) :
  PyStr.endswith ".csv" (filename f) = false →
  PyStr.endswith ".pdf" (filename f) = false →
  is_image (filename f) = true →
  ∃ described,
    bind_file file_path f ctx info
    = Returns (<[var_name "img_path_" (filename f) := PStr file_path]> ctx,
               add_image {| img_name := var_name "img_path_" (filename f);
                            img_filename := filename f;
                            img_info := described |} info)
    ∧ ((∃ e, image_open file_path (file f) = Raises e) → described = ∅).
Proof.
  intros Hcsv Hpdf Himg. unfold bind_file. rewrite Hcsv, Hpdf, Himg.
  eexists. split; [reflexivity|].
  intros [e He]. unfold process_image_file. by rewrite He.
Qed.

Lemma image_binds_path_witness :
  (∃ described,
      @bind_file demo_libraries "/tmp/tmpk3x9/Chart.PNG"
        (upload "Chart.PNG" "x") ∅ empty_file_info
      = Returns (<[var_name "img_path_" "Chart.PNG"
                   := PStr "/tmp/tmpk3x9/Chart.PNG"]> ∅,
                 add_image {| img_name := var_name "img_path_" "Chart.PNG";
                              img_filename := "Chart.PNG";
                              img_info := described |} empty_file_info))
  ∧ @bind_file demo_libraries "/tmp/tmpk3x9/logo.jpg"
      (upload "logo.jpg" "") ∅ empty_file_info
    = Returns (<[var_name "img_path_" "logo.jpg"
                 := PStr "/tmp/tmpk3x9/logo.jpg"]> ∅,
               add_image {| img_name := var_name "img_path_" "logo.jpg";
                            img_filename := "logo.jpg";
                            img_info := ∅ |} empty_file_info).
Proof.
  destruct (@image_binds_path demo_libraries "/tmp/tmpk3x9/Chart.PNG"
              (upload "Chart.PNG" "x") ∅ empty_file_info)
    as (described & Hbound & _); [reflexivity..|].
  destruct (@image_binds_path demo_libraries "/tmp/tmpk3x9/logo.jpg"
              (upload "logo.jpg" "") ∅ empty_file_info)
    as (nothing & Hlogo & Hfailed); [reflexivity..|].
  split; [by exists described|].
  rewrite Hlogo, Hfailed; [reflexivity|].
  exists (PyException "cannot identify image file"). reflexivity.
Defined.

Lemma pages_all_or_raise (pages : list (outcome string)) :
  (∃ texts, pages = Returns <$> texts) ∨ (∃ e, Raises e ∈ pages).
Proof.
  induction pages as [|[t|e] pages [[texts ->]|[e' He']]].
  - left. by exists [].
  - left. by exists (t :: texts).
  - right. exists e'. by apply list_elem_of_further.
  - right. exists e. apply list_elem_of_here.
  - right. exists e. apply list_elem_of_here.
Qed.

Lemma pages_text_empty (texts : list string) :
  pages_text texts = "" → texts = [].
Proof.
  destruct texts as [|t texts]; [done|]. simpl. intros Heq.
  apply (f_equal String.length) in Heq.
  rewrite !string_length_app in Heq. simpl in Heq. lia.
Qed.

(** X9: since every page adds a newline, the text of a PDF is empty only
    when the file could not be opened, a page could not be extracted, or
    the document has no pages. *)
Theorem process_pdf_file_empty {L : Libraries} (file_path : string)
    (bytes : list Byte.byte) :
  process_pdf_file file_path bytes = ""
  ↔ (∃ e, pdf_reader file_path bytes = Raises e)
    ∨ (∃ pages, pdf_reader file_path bytes = Returns pages
                ∧ (pages = [] ∨ ∃ e, Raises e ∈ pages)).
Proof.
  unfold process_pdf_file.
  destruct (pdf_reader file_path bytes) as [pages|e]; [|split; eauto].
  destruct (pages_all_or_raise pages) as [[texts ->]|[e He]].
  - rewrite extract_pages_returns. simpl. split.
    + intros ->%pages_text_empty. right. eexists. split; [done|]. by left.
    + intros [[e [=]]|(pages & [= <-] & [Hnil|[e He]])].
      * by destruct texts.
      * apply list_elem_of_fmap in He as (t & [=] & _).
  - destruct (extract_pages_raises pages e He "") as [e' ->].
    split; [|done]. intros _. right. exists pages. eauto.
Qed.

(* ===================================================================== *)
(** * More on code extraction *)
(* ===================================================================== *)

Section ExtractionMore.

Import PyStr.

Lemma extract_code_unfold (response : string) :
  extract_code response = strip (extraction_result response).
Proof.
  unfold extract_code, extraction_result.
  destruct (contains python_fence response) eqn:Etag.
  - apply contains_cut in Etag as [[pre rest] Hcut]. rewrite Hcut.
    by rewrite item_split_0, (item_split_1 _ _ _ _ Hcut).
  - apply contains_false_cut in Etag. rewrite Etag.
    destruct (contains fence response) eqn:Efence.
    + apply contains_cut in Efence as [[pre rest] Hcut]. rewrite Hcut.
      rewrite item_split_0, (item_split_1 _ _ _ _ Hcut).
      by rewrite before_idem.
    + apply contains_false_cut in Efence. by rewrite Efence.
Qed.

Lemma contains_app_r (p a b : string) :
  contains p b = true → contains p (a +:+ b) = true.
Proof.
  intros Hb. induction a as [|c a IH]; [done|].
  change (String c a +:+ b) with (String c (a +:+ b)).
  simpl. rewrite IH. by destruct (startswith _ _).
Qed.

Lemma contains_app_l (p a b : string) :
  contains p a = true → contains p (a +:+ b) = true.
Proof.
  induction a as [|c a IH]; simpl.
  - destruct (startswith p "") eqn:E; [|done]. intros _.
    destruct p; [|done]. by destruct b.
  - destruct (startswith p (String c a)) eqn:E.
    + intros _. apply (startswith_app _ _ b) in E.
      change (String c a +:+ b) with (String c (a +:+ b)) in *.
      simpl. by rewrite E.
    + intros Ha. apply IH in Ha.
      change (String c a +:+ b) with (String c (a +:+ b)).
      simpl. rewrite Ha. by case_match.
Qed.

Lemma lstrip_suffix (s : string) : ∃ pre, s = pre +:+ lstrip s.
Proof.
  induction s as [|c s [pre IH]]; simpl.
  - by exists "".
  - destruct (isspace c); [|by exists ""].
    exists (String c pre). unfold String.app in *; simpl. by rewrite <- IH.
Qed.

Lemma rstrip_prefix (s : string) : ∃ post, s = rstrip s +:+ post.
Proof.
  induction s as [|c s [post IH]]; simpl.
  - by exists "".
  - destruct (rstrip s) as [|d r] eqn:E.
    + destruct (isspace c).
      * by exists (String c s).
      * exists s. by unfold String.app.
    + exists post. unfold String.app in *; simpl. by rewrite <- IH.
Qed.

Lemma contains_strip (p s : string) :
  contains p (strip s) = true → contains p s = true.
Proof.
  unfold strip. intros H.
  destruct (lstrip_suffix s) as [pre Hpre].
  destruct (rstrip_prefix (lstrip s)) as [post Hpost].
  rewrite Hpre. apply contains_app_r. rewrite Hpost. by apply contains_app_l.
Qed.

Lemma before_no_sep (sep s : string) :
  sep ≠ "" → contains sep (before sep s) = false.
Proof.
  intros Hne. apply contains_false_cut. unfold before.
  destruct (cut sep s) as [[a b]|] eqn:C; [|done].
  by apply (cut_before_none _ _ _ _ Hne C).
Qed.

Lemma rstrip_idem (s : string) : rstrip (rstrip s) = rstrip s.
Proof.
  induction s as [|c s IH]; [done|]. simpl.
  destruct (rstrip s) as [|d r] eqn:E.
  - destruct (isspace c) eqn:Ec; [done|]. simpl. by rewrite Ec.
  - simpl in *. by rewrite IH.
Qed.

Lemma lstrip_head (s : string) (c : ascii) :
  first_char (lstrip s) = Some c → isspace c = false.
Proof.
  induction s as [|d s IH]; simpl; [done|].
  destruct (isspace d) eqn:Ed; [done|]. simpl. by intros [= <-].
Qed.

Lemma rstrip_keeps_head (c : ascii) (s : string) :
  isspace c = false → ∃ r, rstrip (String c s) = String c r.
Proof.
  intros Hc. simpl. destruct (rstrip s); rewrite ?Hc; by eexists.
Qed.

Lemma strip_first_char (s : string) (c : ascii) :
  first_char (strip s) = Some c → isspace c = false.
Proof.
  unfold strip. destruct (lstrip s) as [|d t] eqn:E; [done|].
  assert (isspace d = false) as Hd by (apply (lstrip_head s); by rewrite E).
  destruct (rstrip_keeps_head d t Hd) as [r ->]. simpl. by intros [= <-].
Qed.

Lemma rstrip_last (s : string) (c : ascii) :
  last_char (rstrip s) = Some c → isspace c = false.
Proof.
  induction s as [|d s IH]; simpl; [done|].
  destruct (rstrip s) as [|x r] eqn:E.
  - destruct (isspace d) eqn:Ed; [done|]. simpl. by intros [= <-].
  - change (last_char (String d (String x r)))
      with (match last_char (String x r) with
            | Some y => Some y | None => Some d end).
    destruct (last_char (String x r)) as [y|] eqn:El; [|by simpl in El;
      destruct (last_char r)].
    intros [= <-]. by apply IH.
Qed.

Lemma strip_idem (s : string) : strip (strip s) = strip s.
Proof.
  unfold strip. destruct (lstrip s) as [|d t] eqn:E; [done|].
  assert (isspace d = false) as Hd by (apply (lstrip_head s); by rewrite E).
  destruct (rstrip_keeps_head d t Hd) as [r Hr].
  rewrite Hr. cbn [lstrip]. rewrite Hd, <- Hr. apply rstrip_idem.
Qed.

(** X10: whatever the model answered, the extracted code holds no fence
    marker. *)
Theorem extract_code_no_fence (response : string) :
  contains fence (extract_code response) = false.
Proof.
  rewrite extract_code_unfold. apply not_true_iff_false.
  intros Hin%contains_strip. revert Hin. apply not_true_iff_false.
  unfold extraction_result.
  destruct (cut python_fence response) as [[pre rest]|]; [by apply before_no_sep|].
  destruct (cut fence response) as [[pre rest]|] eqn:C;
    [by apply before_no_sep|].
  by apply contains_false_cut.
Qed.

(** X11: the extracted code is already trimmed: it neither starts nor ends
    with a whitespace character, and stripping it again changes nothing. *)
Theorem extract_code_trimmed (response : string) :
  strip (extract_code response) = extract_code response
  ∧ (∀ c, first_char (extract_code response) = Some c → isspace c = false)
  ∧ (∀ c, last_char (extract_code response) = Some c → isspace c = false).
Proof.
  rewrite extract_code_unfold. split; [apply strip_idem|]. split.
  - apply strip_first_char.
  - apply rstrip_last.
Qed.

End ExtractionMore.

Section WellFormedReply.

Import PyStr.

Lemma drop_app_length (a b : string) : drop (String.length a) (a +:+ b) = b.
Proof. induction a as [|c a IH]; [done|]. exact IH. Qed.

Lemma cut_cons_other (a c : ascii) (sep' s : string) :
  Ascii.eqb a c = false →
  cut (String a sep') (String c s)
  = match cut (String a sep') s with
    | Some (x, y) => Some (String c x, y)
    | None => None
    end.
Proof. intros Hac. cbn [cut startswith]. by rewrite Hac. Qed.

Lemma before_cons_other (a c : ascii) (sep' s : string) :
  Ascii.eqb a c = false →
  before (String a sep') (String c s) = String c (before (String a sep') s).
Proof.
  intros Hac. unfold before. rewrite (cut_cons_other _ _ _ _ Hac).
  by destruct (cut _ s) as [[x y]|].
Qed.

Lemma backtick_free_cons (c : ascii) (s : string) :
  backtick_free (String c s) = true →
  Ascii.eqb "`" c = false ∧ backtick_free s = true.
Proof.
  unfold backtick_free. cbn [forallb_char]. intros [Hc Hs]%andb_true_iff.
  split; [|done]. rewrite Ascii.eqb_sym. by apply negb_true_iff.
Qed.

(** In front of a marker that starts with a backtick, text without
    backticks holds no occurrence of it. *)
Lemma cut_backtick_free (sep' pre rest : string) :
  backtick_free pre = true →
  cut (String "`" sep') (pre +:+ String "`" sep' +:+ rest) = Some (pre, rest).
Proof.
  induction pre as [|c pre IH].
  - intros _. change ("" +:+ String "`" sep' +:+ rest)
      with (String "`" sep' +:+ rest).
    destruct (String "`" sep' +:+ rest) as [|x t] eqn:E; [done|].
    assert (startswith (String "`" sep') (String x t) = true) as Hs
      by (rewrite <- E; apply startswith_self_app).
    destruct (String x t) eqn:E'; [done|]. cbn [cut]. rewrite Hs.
    by rewrite <- E, drop_app_length.
  - intros [Hc Hpre]%backtick_free_cons.
    change (String c pre +:+ String "`" sep' +:+ rest)
      with (String c (pre +:+ String "`" sep' +:+ rest)).
    by rewrite (cut_cons_other _ _ _ _ Hc), IH.
Qed.

Lemma before_backtick_free (sep' body rest : string) :
  backtick_free body = true →
  before (String "`" sep') (body +:+ String "`" sep' +:+ rest) = body.
Proof. intros Hb. unfold before. by rewrite cut_backtick_free. Qed.

Lemma startswith_cons_eq (a c : ascii) (p s : string) :
  startswith (String a p) (String c s) = Ascii.eqb a c && startswith p s.
Proof. simpl. by destruct (Ascii.eqb a c). Qed.

Lemma startswith_backtick_miss (q post : string) :
  startswith "`" post = false → startswith (String "`" q) post = false.
Proof.
  destruct post as [|c post]; [done|].
  rewrite !startswith_cons_eq. by destruct (Ascii.eqb "`" c).
Qed.

Lemma before_cons_miss (sep : string) (c : ascii) (s : string) :
  startswith sep (String c s) = false →
  before sep (String c s) = String c (before sep s).
Proof.
  intros Hmiss. unfold before. cbn [cut]. rewrite Hmiss.
  by destruct (cut sep s) as [[x y]|].
Qed.

Lemma before_hit (sep s : string) :
  startswith sep s = true → before sep s = "".
Proof. intros Hhit. unfold before. destruct s; cbn [cut]; by rewrite Hhit. Qed.

(** After the closing fence, a tag further on does not reach back into
    the block as long as the fence is not followed by another backtick. *)
Lemma tagged_block_end (post : string) :
  startswith "`" post = false →
  before fence (before python_fence (fence +:+ post)) = "".
Proof.
  intros Hpost.
  assert (∀ x, before fence (fence +:+ x) = "") as Hfence
    by (intros x; apply (before_backtick_free "``" "" x); done).
  assert (startswith python_fence (String "`" (String "`" post)) = false)
    as Hmiss2.
  { unfold python_fence. rewrite !startswith_cons_eq.
    rewrite (startswith_backtick_miss _ _ Hpost). by rewrite !andb_false_r. }
  assert (startswith python_fence (String "`" post) = false) as Hmiss1.
  { unfold python_fence. rewrite !startswith_cons_eq.
    rewrite (startswith_backtick_miss _ _ Hpost). by rewrite !andb_false_r. }
  change (fence +:+ post) with (String "`" (String "`" (String "`" post))).
  destruct (startswith python_fence
              (String "`" (String "`" (String "`" post)))) eqn:Ehit.
  - rewrite (before_hit _ _ Ehit). apply (Hfence "").
  - rewrite (before_cons_miss _ _ _ Ehit), (before_cons_miss _ _ _ Hmiss2),
      (before_cons_miss _ _ _ Hmiss1).
    apply (Hfence (before python_fence post)).
Qed.

Lemma tagged_block_body (body post : string) :
  backtick_free body = true →
  startswith "`" post = false →
  before fence (before python_fence (body +:+ fence +:+ post)) = body.
Proof.
  intros Hbody Hpost. induction body as [|c body IH].
  - by apply tagged_block_end.
  - apply backtick_free_cons in Hbody as [Hc Hbody].
    change (String c body +:+ fence +:+ post)
      with (String c (body +:+ fence +:+ post)).
    unfold python_fence, fence in *.
    rewrite (before_cons_other _ _ _ _ Hc), (before_cons_other _ _ _ _ Hc).
    by rewrite IH.
Qed.

(** X12: a reply in the shape the prompt asks for, text, a python-tagged
    block, more text, gives back the block's body, trimmed, provided the
    text in front and the body hold no backtick and the closing fence is
    not followed by a further backtick. *)
Theorem extract_code_tagged_block (pre body post : string) :
  backtick_free pre = true →
  backtick_free body = true →
  startswith "`" post = false →
  extract_code (pre +:+ python_fence +:+ body +:+ fence +:+ post) = strip body.
Proof.
  intros Hpre Hbody Hpost. rewrite extract_code_unfold.
  unfold extraction_result.
  unfold python_fence at 1 2.
  rewrite (cut_backtick_free "``python" pre _ Hpre).
  f_equal. by apply tagged_block_body.
Qed.

Lemma extract_code_tagged_block_witness :
  extract_code ("Here is the code:" +:+ newline +:+ python_fence +:+
                (newline +:+ "result = df_sales_csv.mean()" +:+ newline) +:+
                fence +:+ " Done.")
  = strip (newline +:+ "result = df_sales_csv.mean()" +:+ newline).
Proof.
  apply (extract_code_tagged_block ("Here is the code:" +:+ newline)
           (newline +:+ "result = df_sales_csv.mean()" +:+ newline)
           " Done."); reflexivity.
Defined.

(** X13: a reply with a block that carries no python tag anywhere gives
    back what stands between the first two fences, trimmed, including any
    other language tag written after the opening fence. *)
Theorem extract_code_untagged_block (pre body post : string) :
  backtick_free pre = true →
  backtick_free body = true →
  contains python_fence (pre +:+ fence +:+ body +:+ fence +:+ post) = false →
  extract_code (pre +:+ fence +:+ body +:+ fence +:+ post) = strip body.
Proof.
  intros Hpre Hbody Htag%contains_false_cut. rewrite extract_code_unfold.
  unfold extraction_result. rewrite Htag.
  unfold fence at 1 2.
  rewrite (cut_backtick_free "``" pre _ Hpre).
  f_equal. by apply (before_backtick_free "``").
Qed.

Lemma extract_code_untagged_block_witness :
  extract_code ("Try " +:+ fence +:+ "py result = 4 " +:+ fence +:+ " ok")
  = strip "py result = 4 ".
Proof.
  apply (extract_code_untagged_block "Try " "py result = 4 " " ok");
    reflexivity.
Defined.

End WellFormedReply.

(* ===================================================================== *)
(** * The namespace the code runs in *)
(* ===================================================================== *)

(** X15: in the namespace the code of a request runs in, every file
    binding is visible, every name of the fixed namespace keeps the value
    the server gave it (no upload can shadow [pd], [np] or a helper), and
    nothing else is defined. *)
Theorem namespace_is_disjoint_union {L : Libraries} (temp_dir : string)
    (uploads : list UploadFile) (st : gmap string pyval * FileInfo) :
  process_files temp_dir (∅, empty_file_info) uploads = Returns st →
  (∀ k v, st.1 !! k = Some v → execution_namespace st.1 !! k = Some v)
  ∧ (∀ k v, safe_globals !! k = Some v →
            execution_namespace st.1 !! k = Some v)
  ∧ dom (execution_namespace st.1) = dom st.1 ∪ dom safe_globals
  ∧ size (execution_namespace st.1) = (size st.1 + 12)%nat.
Proof.
  intros Hfiles.
  assert (∀ k, is_Some (safe_globals !! k) → st.1 !! k = None) as Hfresh.
  { intros k Hk%elem_of_dom. apply not_elem_of_dom. intros Hin.
    apply (file_key_not_global k); [|done].
    by apply (process_files_context_keys _ _ _ Hfiles). }
  unfold execution_namespace. split; [|split; [|split]].
  - intros k v Hk. by apply lookup_union_Some_l.
  - intros k v Hk. rewrite lookup_union_r; [done|]. apply Hfresh. by eexists.
  - apply dom_union_L.
  - rewrite map_size_disj_union; [done|].
    apply map_disjoint_spec. intros k x y Hx Hy.
    rewrite Hfresh in Hx; [done|by eexists].
Qed.

Lemma namespace_is_disjoint_union_witness :
  (∀ k v,
      (demo_files_state [upload "pd.csv" "a,b"; upload "np.pdf" "x"]).1 !! k
      = Some v →
      execution_namespace
        (demo_files_state [upload "pd.csv" "a,b"; upload "np.pdf" "x"]).1 !! k
      = Some v)
  ∧ (∀ k v, safe_globals !! k = Some v →
            execution_namespace
              (demo_files_state [upload "pd.csv" "a,b"; upload "np.pdf" "x"]).1
              !! k = Some v)
  ∧ dom (execution_namespace
           (demo_files_state [upload "pd.csv" "a,b"; upload "np.pdf" "x"]).1)
    = dom (demo_files_state [upload "pd.csv" "a,b"; upload "np.pdf" "x"]).1
      ∪ dom safe_globals
  ∧ size (execution_namespace
            (demo_files_state [upload "pd.csv" "a,b"; upload "np.pdf" "x"]).1)
    = (size (demo_files_state [upload "pd.csv" "a,b"; upload "np.pdf" "x"]).1
       + 12)%nat.
Proof.
  apply (@namespace_is_disjoint_union demo_libraries "/tmp/tmpk3x9"
           [upload "pd.csv" "a,b"; upload "np.pdf" "x"]).
  reflexivity.
Defined.

(* ===================================================================== *)
(** * More on the handler *)
(* ===================================================================== *)

(** X16: every envelope the handler returns carries the request's task
    id and the time between the two clock readings, and its status is
    "completed" or "error": a "completed" envelope has no error text, an
    "error" envelope has an error text and a null result. *)
Theorem returned_envelope_shape {L : Libraries} (env : Env)
    (questions : UploadFile) (uploads : list UploadFile) (w w' : World)
    (r : AnalysisResult) :
  analyze_data env questions uploads w = (Returns r, w') →
  task_id r = uuid4 env
  ∧ execution_time r
    = PrimFloat.sub (loop_time_end env) (loop_time_start env)
  ∧ ((status r = "completed" ∧ error r = None)
     ∨ (status r = "error" ∧ result r = PNone ∧ is_Some (error r))).
Proof.
  intros Hrun.
  destruct (analyze_data_runs env questions uploads w)
    as [(q & d & st & code & v & _ & _ & _ & _ & _ & _ & Hrun')
       |[(e & w1 & Hrun' & _)
        |(q & d & st & code & name & _ & _ & _ & _ & _ & Hrun')]];
    rewrite Hrun in Hrun'; [| |done]; injection Hrun' as -> ->; simpl;
    repeat split; eauto.
Qed.

Lemma returned_envelope_shape_witness :
  task_id (@error_envelope demo_libraries demo_env
             (HTTPException 500 "Code execution error: division by zero"))
  = uuid4 demo_env
  ∧ execution_time
      (@error_envelope demo_libraries demo_env
         (HTTPException 500 "Code execution error: division by zero"))
    = PrimFloat.sub (loop_time_end demo_env) (loop_time_start demo_env)
  ∧ ((status (@error_envelope demo_libraries demo_env
                (HTTPException 500 "Code execution error: division by zero"))
      = "completed"
      ∧ error (@error_envelope demo_libraries demo_env
                 (HTTPException 500 "Code execution error: division by zero"))
        = None)
     ∨ (status (@error_envelope demo_libraries demo_env
                  (HTTPException 500 "Code execution error: division by zero"))
        = "error"
        ∧ result (@error_envelope demo_libraries demo_env
                    (HTTPException 500 "Code execution error: division by zero"))
          = PNone
        ∧ is_Some
            (error (@error_envelope demo_libraries demo_env
                      (HTTPException 500
                         "Code execution error: division by zero"))))).
Proof.
  apply (@returned_envelope_shape demo_libraries demo_env
           (upload "questions.txt" "1/0") [] demo_world demo_world).
  reflexivity.
Defined.

(** X29: when the generated code raises a [BaseException] that is not an
    [Exception] ([SystemExit], [KeyboardInterrupt]), neither
    [except Exception] clause catches it: it leaves the handler and no
    envelope is returned; the [finally] clause has still removed the
    workspace, and no record is written. *)
Theorem base_exception_leaves_handler {L : Libraries} (env : Env)
    (questions : UploadFile) (uploads : list UploadFile) (w : World)
    (questions_text temp_dir code name : string)
    (st : gmap string pyval * FileInfo) :
  utf8_decode (file questions) = Returns questions_text →
  mkdtemp_result env = Returns temp_dir →
  process_files temp_dir (∅, empty_file_info) uploads = Returns st →
  generate_analysis_code questions_text st.2 = Returns code →
  py_exec code (execution_namespace st.1) = Raises (BaseException name) →
  analyze_data env questions uploads w
  = (Raises (BaseException name),
     {| analysis_requests := analysis_requests w;
        workspaces := ({[temp_dir]} ∪ workspaces w) ∖ {[temp_dir]} |}).
Proof.
  intros Hq Hd Hfiles Hgen Hexec.
  assert (execute_analysis_code code st.1 = Raises (BaseException name))
    as Hrun by (unfold execute_analysis_code; by rewrite Hexec).
  unfold_handler. by rewrite Hq, Hd, Hfiles, Hgen, Hrun.
Qed.

Lemma base_exception_leaves_handler_witness :
  @analyze_data demo_libraries demo_env
    (upload "questions.txt" "plt.sys.exit(3)") [upload "sales.csv" "a,b"]
    busy_world
  = (Raises (BaseException "SystemExit"),
     {| analysis_requests := analysis_requests busy_world;
        workspaces := ({["/tmp/tmpk3x9"]} ∪ workspaces busy_world)
                      ∖ {["/tmp/tmpk3x9"]} |}).
Proof.
  apply (@base_exception_leaves_handler demo_libraries demo_env
           (upload "questions.txt" "plt.sys.exit(3)")
           [upload "sales.csv" "a,b"] busy_world
           "plt.sys.exit(3)" "/tmp/tmpk3x9" "plt.sys.exit(3)" "SystemExit"
           (demo_files_state [upload "sales.csv" "a,b"])); reflexivity.
Defined.

(** X17: a failure of the model call is answered like any other failure:
    with status 200 and an "error" envelope whose text is that of the 500
    exception [generate_analysis_code] raised around the model's error;
    nothing is executed or logged. *)
Theorem model_failure_envelope {L : Libraries} (env : Env)
    (questions : UploadFile) (uploads : list UploadFile) (w : World)
    (questions_text temp_dir : string) (st : gmap string pyval * FileInfo)
    (e : exn) :
  utf8_decode (file questions) = Returns questions_text →
  mkdtemp_result env = Returns temp_dir →
  process_files temp_dir (∅, empty_file_info) uploads = Returns st →
  llm_send_message questions_text st.2 = Raises e →
  (analyze_data env questions uploads w).1
  = Returns (error_envelope env
               (HTTPException 500 ("LLM code generation error: " +:+ str e)))
  ∧ response_status (analyze_data env questions uploads w).1 = Some 200
  ∧ analysis_requests (analyze_data env questions uploads w).2
    = analysis_requests w.
Proof.
  intros Hq Hd Hfiles Hllm.
  unfold_handler. unfold generate_analysis_code.
  by rewrite Hq, Hd, Hfiles, Hllm.
Qed.

Lemma model_failure_envelope_witness :
  (@analyze_data quota_libraries demo_env (upload "questions.txt" "result = 4")
     [upload "sales.csv" "a,b"] demo_world).1
  = Returns (@error_envelope quota_libraries demo_env
               (HTTPException 500
                  ("LLM code generation error: "
                   +:+ @str quota_libraries (PyException "quota exceeded"))))
  ∧ @response_status quota_libraries
      (@analyze_data quota_libraries demo_env
         (upload "questions.txt" "result = 4") [upload "sales.csv" "a,b"]
         demo_world).1 = Some 200
  ∧ analysis_requests
      (@analyze_data quota_libraries demo_env
         (upload "questions.txt" "result = 4") [upload "sales.csv" "a,b"]
         demo_world).2
    = analysis_requests demo_world.
Proof.
  apply (@model_failure_envelope quota_libraries demo_env
           (upload "questions.txt" "result = 4") [upload "sales.csv" "a,b"]
           demo_world "result = 4" "/tmp/tmpk3x9"
           (demo_files_state [upload "sales.csv" "a,b"])
           (PyException "quota exceeded")); reflexivity.
Defined.

(** X18: when the log write fails after the code has run, the computed
    result is dropped: the caller gets an "error" envelope with a null
    result and the text of the database error, and the log is as it was. *)
Theorem log_failure_drops_result {L : Libraries} (env : Env)
    (questions : UploadFile) (uploads : list UploadFile) (w : World)
    (questions_text temp_dir code : string)
    (st : gmap string pyval * FileInfo) (value : pyval) (e : exn) :
  utf8_decode (file questions) = Returns questions_text →
  mkdtemp_result env = Returns temp_dir →
  process_files temp_dir (∅, empty_file_info) uploads = Returns st →
  generate_analysis_code questions_text st.2 = Returns code →
  execute_analysis_code code st.1 = Returns value →
  insert_one_result env = Some e →
  (analyze_data env questions uploads w).1 = Returns (error_envelope env e)
  ∧ analysis_requests (analyze_data env questions uploads w).2
    = analysis_requests w.
Proof.
  intros Hq Hd Hfiles Hgen Hrun Hins.
  unfold_handler. by rewrite Hq, Hd, Hfiles, Hgen, Hrun, Hins.
Qed.

Lemma analyze_data_early_failure {L : Libraries} (env : Env)
    (questions : UploadFile) (uploads : list UploadFile) (w : World)
    (e : exn) :
  utf8_decode (file questions) = Raises e
  ∨ ((∃ questions_text, utf8_decode (file questions) = Returns questions_text)
     ∧ mkdtemp_result env = Raises e) →
  analyze_data env questions uploads w = (Returns (error_envelope env e), w).
Proof.
  intros [Hq|[[q Hq] Hd]]; unfold_handler; rewrite Hq; [done|].
  by rewrite Hd.
Qed.

Lemma log_failure_drops_result_witness :
  (@analyze_data demo_libraries database_down_env
     (upload "questions.txt" "result = 4") [] demo_world).1
  = Returns (@error_envelope demo_libraries database_down_env
               (PyException "connection closed"))
  ∧ analysis_requests
      (@analyze_data demo_libraries database_down_env
         (upload "questions.txt" "result = 4") [] demo_world).2
    = analysis_requests demo_world.
Proof.
  apply (@log_failure_drops_result demo_libraries database_down_env
           (upload "questions.txt" "result = 4") [] demo_world
           "result = 4" "/tmp/tmpk3x9" "result = 4" (∅, empty_file_info)
           (PInt 4) (PyException "connection closed")); reflexivity.
Defined.

(** X19: a request that fails before its workspace exists, because the
    question is not valid UTF-8 or because [mkdtemp] fails, is answered
    with an "error" envelope and leaves the log and the disk untouched. *)
Theorem early_failure_changes_nothing {L : Libraries} (env : Env)
    (questions : UploadFile) (uploads : list UploadFile) (w : World)
    (e : exn) :
  utf8_decode (file questions) = Raises e
  ∨ ((∃ questions_text, utf8_decode (file questions) = Returns questions_text)
     ∧ mkdtemp_result env = Raises e) →
  analyze_data env questions uploads w = (Returns (error_envelope env e), w).
Proof. apply analyze_data_early_failure. Qed.

Lemma early_failure_changes_nothing_witness :
  @analyze_data demo_libraries demo_env binary_upload
    [upload "sales.csv" "a,b"] busy_world
  = (Returns (@error_envelope demo_libraries demo_env
                (PyException "'utf-8' codec can't decode byte 0xff in position 0: invalid start byte")),
     busy_world).
Proof.
  apply (@early_failure_changes_nothing demo_libraries demo_env binary_upload
           [upload "sales.csv" "a,b"] busy_world
           (PyException "'utf-8' codec can't decode byte 0xff in position 0: invalid start byte")).
  left. reflexivity.
Defined.

Lemma analyze_data_workspaces_subseteq {L : Libraries} (env : Env)
    (questions : UploadFile) (uploads : list UploadFile) (w : World) :
  workspaces (analyze_data env questions uploads w).2 ⊆ workspaces w.
Proof.
  destruct (utf8_decode (file questions)) as [q|e] eqn:Hq.
  - destruct (mkdtemp_result env) as [d|e] eqn:Hd.
    + rewrite (analyze_data_workspaces env questions uploads w q d Hq Hd).
      intros k. rewrite elem_of_difference. tauto.
    + by rewrite (analyze_data_early_failure env questions uploads w e);
        [|right; eauto].
  - by rewrite (analyze_data_early_failure env questions uploads w e);
      [|left].
Qed.

(** X20: a request only ever appends to the log, at most one record, and
    never leaves a directory on disk that was not there before. *)
Theorem request_appends_and_cleans {L : Libraries} (env : Env)
    (questions : UploadFile) (uploads : list UploadFile) (w : World) :
  analysis_requests w
    `prefix_of` analysis_requests (analyze_data env questions uploads w).2
  ∧ (length (analysis_requests (analyze_data env questions uploads w).2)
     ≤ length (analysis_requests w) + 1)%nat
  ∧ workspaces (analyze_data env questions uploads w).2 ⊆ workspaces w.
Proof.
  split; [|split]; [| |apply analyze_data_workspaces_subseteq];
    destruct (analyze_data_runs env questions uploads w)
      as [(q & d & st & code & v & _ & _ & _ & _ & _ & _ & Hrun)
         |[(e & w' & Hrun & Hdb)
          |(q & d & st & code & name & _ & _ & _ & _ & _ & Hrun)]];
    rewrite Hrun; simpl; rewrite ?Hdb, ?length_app; simpl;
    try lia; try done; by eexists.
Qed.

(* ===================================================================== *)
(** * The listing endpoint *)
(* ===================================================================== *)

(** X22: the listing never has more than 100 entries; it is the log from
    its first record on, cut after the hundredth, so a log of at most 100
    records is listed whole. *)
Theorem listing_is_first_hundred (w : World) :
  (length (get_analysis_tasks w) ≤ 100)%nat
  ∧ get_analysis_tasks w `prefix_of` analysis_requests w
  ∧ ((length (analysis_requests w) ≤ 100)%nat →
     get_analysis_tasks w = analysis_requests w).
Proof.
  unfold get_analysis_tasks. split; [|split].
  - rewrite length_take. lia.
  - apply prefix_take.
  - apply take_ge.
Qed.

(** X23: the record of a completed request is the last entry of the
    listing as long as fewer than 100 records were stored before it; from
    the hundredth stored record on, a new record does not show in the
    listing, which stays as it was. *)
Theorem listing_after_request {L : Libraries} (env : Env)
    (questions : UploadFile) (uploads : list UploadFile) (w w' : World)
    (r : AnalysisResult) :
  analyze_data env questions uploads w = (Returns r, w') →
  status r = "completed" →
  ((length (analysis_requests w) < 100)%nat →
   ∃ doc, last (get_analysis_tasks w') = Some doc
          ∧ req_task_id doc = task_id r)
  ∧ ((100 ≤ length (analysis_requests w))%nat →
     get_analysis_tasks w' = get_analysis_tasks w).
Proof.
  intros Hrun Hstatus. unfold get_analysis_tasks.
  destruct (analyze_data_runs env questions uploads w)
    as [(q & d & st & code & v & _ & _ & _ & _ & _ & _ & Hrun')
       |[(e & w1 & Hrun' & _)
        |(q & d & st & code & name & _ & _ & _ & _ & _ & Hrun')]];
    rewrite Hrun in Hrun'; [| |done]; injection Hrun' as -> ->; [|done].
  simpl. split.
  - intros Hlt. exists (completed_record env q (files st.2)).
    split; [|reflexivity].
    rewrite take_ge by (rewrite length_app; simpl; lia).
    apply last_snoc.
  - intros Hge. by rewrite take_app_le.
Qed.

Lemma listing_after_request_witness :
  ((length (analysis_requests demo_world) < 100)%nat →
   ∃ doc,
     last (get_analysis_tasks
             (@analyze_data demo_libraries demo_env
                (upload "questions.txt" "result = 4") [] demo_world).2)
     = Some doc
     ∧ req_task_id doc = uuid4 demo_env)
  ∧ ((100 ≤ length (analysis_requests demo_world))%nat →
     get_analysis_tasks
       (@analyze_data demo_libraries demo_env
          (upload "questions.txt" "result = 4") [] demo_world).2
     = get_analysis_tasks demo_world).
Proof.
  apply (@listing_after_request demo_libraries demo_env
           (upload "questions.txt" "result = 4") [] demo_world
           (@analyze_data demo_libraries demo_env
              (upload "questions.txt" "result = 4") [] demo_world).2
           {| task_id := uuid4 demo_env; result := PInt 4;
              execution_time := 2.5%float; status := "completed";
              error := None |}); reflexivity.
Defined.

(* ===================================================================== *)
(** * The scraping helper *)
(* ===================================================================== *)

(** X24: whichever of its three calls raises, [requests.get],
    [BeautifulSoup] or [pd.read_html] (as pandas does for a page without
    tables), [scrape_wikipedia_table] raises an [HTTPException] 400 whose
    detail is "Error scraping data: " followed by the text of that
    exception. *)
Theorem scrape_failure_is_400 {L : Libraries} {W : WebLibraries}
    (url : string) (e : exn) :
  requests_get url = Raises e
  ∨ (∃ content,
        requests_get url = Returns content
        ∧ (beautiful_soup content = Some e
           ∨ (beautiful_soup content = None ∧ pd_read_html url = Raises e))) →
  scrape_wikipedia_table url
  = Raises (HTTPException 400 ("Error scraping data: " +:+ str e)).
Proof.
  unfold scrape_wikipedia_table, first_table.
  intros [->|(content & -> & [->|[-> ->]])]; done.
Qed.

Lemma scrape_failure_is_400_witness :
  @scrape_wikipedia_table demo_libraries demo_web
    "https://en.wikipedia.org/wiki/Empty"
  = Raises (HTTPException 400
              ("Error scraping data: "
               +:+ @str demo_libraries (PyException "No tables found"))).
Proof.
  apply (@scrape_failure_is_400 demo_libraries demo_web
           "https://en.wikipedia.org/wiki/Empty"
           (PyException "No tables found")).
  right. exists (list_byte_of_string "<html></html>").
  split; [reflexivity|]. right. split; reflexivity.
Defined.

(** X25: the helper returns a table exactly when the page could be
    fetched, parsed, and read by pandas with at least one table, and then
    it is the first one; a failure of [requests.get] alone makes it fail,
    although the tables are read from the URL by pandas itself. *)
Theorem scrape_returns_first_table {L : Libraries} {W : WebLibraries}
    (url : string) (table : DataFrame) :
  scrape_wikipedia_table url = Returns table
  ↔ ∃ content others,
      requests_get url = Returns content
      ∧ beautiful_soup content = None
      ∧ pd_read_html url = Returns (table :: others).
Proof.
  unfold scrape_wikipedia_table, first_table. split.
  - destruct (requests_get url) as [content|]; [|done].
    destruct (beautiful_soup content) eqn:Hsoup; [done|].
    destruct (pd_read_html url) as [[|t others]|]; [done| |done].
    intros [= <-]. by exists content, others.
  - intros (content & others & -> & -> & ->). done.
Qed.

Example scrape_first_of_two :
  @scrape_wikipedia_table demo_libraries demo_web
    "https://en.wikipedia.org/wiki/Table"
  = Returns {| columns := ["Country"; "Population"];
               rows := [["India"; "1428"]] |}.
Proof. reflexivity. Qed.

Example scrape_offline :
  @scrape_wikipedia_table demo_libraries demo_web "https://offline.example"
  = Raises (HTTPException 400 "Error scraping data: Connection refused").
Proof. reflexivity. Qed.

(* ===================================================================== *)
(** * The plot encoder *)
(* ===================================================================== *)

Lemma data_uri_prefix (format_type img_base64 : string) :
  PyStr.startswith ("data:image/" +:+ format_type +:+ ";base64,")
    (data_uri format_type img_base64) = true.
Proof.
  replace (data_uri format_type img_base64)
    with (("data:image/" +:+ format_type +:+ ";base64,") +:+ img_base64)
    by (unfold data_uri; by rewrite !string_app_assoc).
  apply startswith_self_app.
Qed.

Lemma data_uri_not_empty (format_type img_base64 : string) :
  data_uri format_type img_base64 ≠ "".
Proof. done. Qed.

(** X26: the encoder returns the empty string exactly when [to_image]
    raised, for an object that has that method ([savefig] is then not
    tried), or, for any other object, when [savefig] raised or
    [plt.close] refused the object after a successful [savefig]; in every
    other case the result is the data URI of the rendered bytes and starts
    with [data:image/<format>;base64,]. *)
Theorem create_plot_base64_result {W : WebLibraries} (fig : Figure)
    (format_type : string) (open_figures : gset nat) :
  ((create_plot_base64 fig format_type open_figures).1 = ""
   ↔ match to_image fig with
     | Some render => ∃ e, render format_type = Raises e
     | None =>
         (∃ e, savefig fig format_type = Raises e)
         ∨ (∃ e, pyplot_close fig open_figures = Raises e)
     end)
  ∧ (∀ img_bytes,
        match to_image fig with
        | Some render => render format_type = Returns img_bytes
        | None =>
            savefig fig format_type = Returns img_bytes
            ∧ ∃ still_open, pyplot_close fig open_figures = Returns still_open
        end →
        (create_plot_base64 fig format_type open_figures).1
        = data_uri format_type (b64encode img_bytes)
        ∧ PyStr.startswith ("data:image/" +:+ format_type +:+ ";base64,")
            (create_plot_base64 fig format_type open_figures).1 = true).
Proof.
  unfold create_plot_base64.
  destruct (to_image fig) as [render|]; simpl.
  - destruct (render format_type) as [b|e]; simpl; split.
    + split; [by intros ?%data_uri_not_empty|by intros [e [=]]].
    + intros ? [= <-]. split; [done|apply data_uri_prefix].
    + split; eauto.
    + by intros ? [=].
  - destruct (savefig fig format_type) as [b|e]; simpl.
    + destruct (pyplot_close fig open_figures) as [rest|e]; simpl; split.
      * split; [by intros ?%data_uri_not_empty|].
        by intros [[e [=]]|[e [=]]].
      * intros ? [[= <-] _]. split; [done|apply data_uri_prefix].
      * split; eauto.
      * by intros ? [_ [? [=]]].
    + split; [split; eauto|]. by intros ? [[=] _].
Qed.

(** X27: [plt.close] is reached only after a successful [savefig]: a
    Plotly figure is never closed, a figure whose [savefig] raises stays
    open, and no other figure is touched. *)
Theorem create_plot_base64_closes {W : WebLibraries} (fig : Figure)
    (format_type : string) (open_figures : gset nat) :
  (fig_number fig ∈ open_figures →
   (fig_number fig ∉ (create_plot_base64 fig format_type open_figures).2
    ↔ to_image fig = None ∧ ∃ written, savefig fig format_type = Returns written))
  ∧ (∀ other, other ≠ fig_number fig →
       (other ∈ (create_plot_base64 fig format_type open_figures).2
        ↔ other ∈ open_figures)).
Proof.
  unfold create_plot_base64.
  destruct (to_image fig) as [render|]; simpl.
  - destruct (render format_type); simpl;
      (split; [|done]); intros Hopen;
      (split; [by intros Hclosed|by intros [[=] _]]).
  - destruct (savefig fig format_type) as [b|e]; simpl; split.
    + intros Hopen. unfold pyplot_close.
      rewrite (bool_decide_eq_true_2 _ Hopen), orb_true_r. simpl.
      split; [eauto|].
      intros _. rewrite elem_of_difference, elem_of_singleton. tauto.
    + intros other Hne. unfold pyplot_close.
      destruct (is_figure fig || bool_decide (fig_number fig ∈ open_figures));
        simpl; [|done].
      rewrite elem_of_difference, elem_of_singleton. tauto.
    + intros Hopen. split; [by intros Hclosed|by intros [_ [? [=]]]].
    + done.
Qed.

Lemma create_plot_base64_closes_witness :
  (2%nat ∉ (@create_plot_base64 demo_web matplotlib_figure "png" {[1%nat; 2%nat]}).2
   ↔ to_image matplotlib_figure = None
     ∧ ∃ written, savefig matplotlib_figure "png" = Returns written)
  ∧ (1%nat ∉ (@create_plot_base64 demo_web plotly_figure "png" {[1%nat; 2%nat]}).2
     ↔ to_image plotly_figure = None
       ∧ ∃ written, savefig plotly_figure "png" = Returns written).
Proof.
  destruct (@create_plot_base64_closes demo_web matplotlib_figure "png"
              {[1%nat; 2%nat]}) as [Hmatplotlib _].
  destruct (@create_plot_base64_closes demo_web plotly_figure "png"
              {[1%nat; 2%nat]}) as [Hplotly _].
  split.
  - apply Hmatplotlib. vm_compute. reflexivity.
  - apply Hplotly. vm_compute. reflexivity.
Defined.

Example plot_plotly :
  @create_plot_base64 demo_web plotly_figure "png" {[1%nat]}
  = ("data:image/png;base64,aGk=", {[1%nat]}).
Proof. reflexivity. Qed.

Example plot_matplotlib_bad_format :
  @create_plot_base64 demo_web matplotlib_figure "tiff" {[2%nat]}
  = ("", {[2%nat]}).
Proof. reflexivity. Qed.

Lemma create_plot_base64_result_witness :
  ((@create_plot_base64 demo_web matplotlib_figure "png" {[2%nat]}).1
   = data_uri "png" (@b64encode demo_web (list_byte_of_string "hi"))
   ∧ PyStr.startswith ("data:image/" +:+ "png" +:+ ";base64,")
       (@create_plot_base64 demo_web matplotlib_figure "png" {[2%nat]}).1
     = true)
  ∧ (@create_plot_base64 demo_web pyplot_module "png" {[2%nat]}).1 = "".
Proof.
  destruct (@create_plot_base64_result demo_web matplotlib_figure "png"
              {[2%nat]}) as [_ Hrendered].
  destruct (@create_plot_base64_result demo_web pyplot_module "png"
              {[2%nat]}) as [[_ Hempty] _].
  split.
  - apply (Hrendered (list_byte_of_string "hi")). simpl.
    split; [reflexivity|]. eexists. reflexivity.
  - apply Hempty. simpl. right. eexists. reflexivity.
Defined.

Lemma listing_is_first_hundred_witness :
  (length (get_analysis_tasks crowded_world) ≤ 100)%nat
  ∧ get_analysis_tasks crowded_world `prefix_of` analysis_requests crowded_world
  ∧ get_analysis_tasks demo_world = analysis_requests demo_world.
Proof.
  destruct (listing_is_first_hundred crowded_world) as (Hbound & Hprefix & _).
  destruct (listing_is_first_hundred demo_world) as (_ & _ & Hwhole).
  split; [exact Hbound|]. split; [exact Hprefix|].
  apply Hwhole. simpl. lia.
Defined.

(** With 100 records stored, a completed request adds the 101st record to
    the log and the listing does not change. *)
Example listing_full :
  length (analysis_requests
            (@analyze_data demo_libraries demo_env
               (upload "questions.txt" "result = 4") [] crowded_world).2)
  = 101%nat
  ∧ get_analysis_tasks
      (@analyze_data demo_libraries demo_env
         (upload "questions.txt" "result = 4") [] crowded_world).2
    = get_analysis_tasks crowded_world.
Proof. by vm_compute. Qed.

(* ===================================================================== *)
(** * A request from end to end *)
(* ===================================================================== *)

(** X28: when every step succeeds, the code that is executed is the code
    extracted from the model's reply, in the namespace built from the
    uploads; the envelope says "completed" with the value of [result] (or
    the fixed message), and the one record written carries the decoded
    question and the names of all uploads. *)
Theorem successful_request {L : Libraries} (env : Env)
    (questions : UploadFile) (uploads : list UploadFile) (w : World)
    (questions_text temp_dir response : string)
    (st : gmap string pyval * FileInfo) (local_vars : gmap string pyval) :
  utf8_decode (file questions) = Returns questions_text →
  mkdtemp_result env = Returns temp_dir →
  process_files temp_dir (∅, empty_file_info) uploads = Returns st →
  llm_send_message questions_text st.2 = Returns response →
  py_exec (extract_code response) (execution_namespace st.1)
  = Returns local_vars →
  insert_one_result env = None →
  analyze_data env questions uploads w
  = (Returns {| task_id := uuid4 env;
                result := default (PStr no_result_message)
                            (local_vars !! "result");
                execution_time :=
                  PrimFloat.sub (loop_time_end env) (loop_time_start env);
                status := "completed"; error := None |},
     {| analysis_requests :=
          analysis_requests w
          ++ [{| req_task_id := uuid4 env; req_timestamp := utcnow env;
                 req_question := questions_text;
                 req_files_processed := filename <$> uploads;
                 req_status := "completed" |}];
        workspaces := ({[temp_dir]} ∪ workspaces w) ∖ {[temp_dir]} |}).
Proof.
  intros Hq Hd Hfiles Hllm Hexec Hins.
  pose proof (process_files_files _ _ _ _ Hfiles) as Hnames. simpl in Hnames.
  unfold_handler. unfold generate_analysis_code, execute_analysis_code.
  rewrite Hq, Hd, Hfiles, Hllm, Hexec. simpl.
  destruct (local_vars !! "result"); simpl; by rewrite Hins, Hnames.
Qed.

Lemma successful_request_witness :
  @analyze_data demo_libraries demo_env (upload "questions.txt" "result = 4")
    [upload "sales.csv" "a,b"; binary_upload] demo_world
  = (Returns {| task_id := uuid4 demo_env;
                result := default (PStr no_result_message)
                            (({["result" := PInt 4]} : gmap string pyval)
                               !! "result");
                execution_time :=
                  PrimFloat.sub (loop_time_end demo_env)
                    (loop_time_start demo_env);
                status := "completed"; error := None |},
     {| analysis_requests :=
          analysis_requests demo_world
          ++ [{| req_task_id := uuid4 demo_env;
                 req_timestamp := utcnow demo_env;
                 req_question := "result = 4";
                 req_files_processed :=
                   filename <$> [upload "sales.csv" "a,b"; binary_upload];
                 req_status := "completed" |}];
        workspaces := ({["/tmp/tmpk3x9"]} ∪ workspaces demo_world)
                      ∖ {["/tmp/tmpk3x9"]} |}).
Proof.
  apply (@successful_request demo_libraries demo_env
           (upload "questions.txt" "result = 4")
           [upload "sales.csv" "a,b"; binary_upload] demo_world
           "result = 4" "/tmp/tmpk3x9"
           ("```python" +:+ newline +:+ "result = 4" +:+ newline +:+ "```")
           (demo_files_state [upload "sales.csv" "a,b"; binary_upload])
           {["result" := PInt 4]}); reflexivity.
Defined.
